(** * Blood Donation Management API: a shallow embedding of [main.py] and
      [schemas.py], and the properties of its request handlers.

    The handlers are thin glue over a document store.  The embedding keeps
    that shape: documents are Python dicts (association lists from field
    names to values), every handler is a computation in a state-and-exception
    monad over the store, and an exception leaves behind whatever had been
    written before it was raised. *)

From Stdlib Require Import ZArith NArith List Bool Ascii String Lia.
Import ListNotations.
Open Scope string_scope.
Open Scope Z_scope.

Set Implicit Arguments.

(* ------------------------------------------------------------------ *)
(** ** BSON object identifiers *)

(** A [bson.ObjectId] is twelve bytes; its value is kept as a number below
    [2^96], and [str] prints it as 24 lower-case hexadecimal characters.
    The constructor accepts a string of exactly 24 characters that
    [bytes.fromhex] can read.  Since [bytes.fromhex] skips ASCII whitespace
    in front of a pair of digits, such a string may give fewer than twelve
    bytes; an identifier of [k < 12] bytes, which only the constructor can
    produce and which no stored document carries, is kept as
    [2^96 * (k + 1)] plus the value of its bytes, apart from every
    twelve-byte identifier and from every identifier of another length. *)
Definition ObjectId := N.

Definition hex_value (c : ascii) : option N :=
  let n := N_of_ascii c in
  if ((48 <=? n) && (n <=? 57))%N then Some (n - 48)%N
  else if ((97 <=? n) && (n <=? 102))%N then Some (n - 87)%N
  else if ((65 <=? n) && (n <=? 70))%N then Some (n - 55)%N
  else None.

(** ASCII whitespace: tab, line feed, vertical tab, form feed, carriage
    return and space. *)
Definition isspace (c : ascii) : bool :=
  let n := N_of_ascii c in
  (((9 <=? n) && (n <=? 13)) || (n =? 32))%N.

(** [bytes.fromhex(s)]: whitespace is skipped in front of each byte, and a
    byte is two hexadecimal digits next to each other.  The result is the
    value of the bytes read and their number; anything else in the string,
    or a digit without its second digit, is a [ValueError]. *)
Fixpoint fromhex (s : string) (acc len : N) : option (N * N) :=
  match s with
  | EmptyString => Some (acc, len)
  | String c rest =>
      if isspace c then fromhex rest acc len
      else
        match hex_value c, rest with
        | Some top, String c' rest' =>
            match hex_value c' with
            | Some bot => fromhex rest' (256 * acc + (16 * top + bot))%N (len + 1)%N
            | None => None
            end
        | _, _ => None
        end
  end.

(** The identifier that holds [len] bytes of value [v]. *)
Definition of_bytes (v len : N) : ObjectId :=
  if (len =? 12)%N then v else (2 ^ 96 * (len + 1) + v)%N.

Definition ObjectId_of_str (s : string) : option ObjectId :=
  if (String.length s =? 24)%nat
  then match fromhex s 0%N 0%N with
       | Some (v, len) => Some (of_bytes v len)
       | None => None
       end
  else None.

Definition hex_char (d : N) : ascii :=
  if (d <? 10)%N then ascii_of_N (48 + d) else ascii_of_N (87 + d).

Fixpoint hex_digits (k : nat) (n : N) (acc : string) : string :=
  match k with
  | O => acc
  | S k' => hex_digits k' (n / 16)%N (String (hex_char (n mod 16)%N) acc)
  end.

Definition str_ObjectId (o : ObjectId) : string := hex_digits 24 o EmptyString.

(* ------------------------------------------------------------------ *)
(** ** Values and documents *)

(** The values a document holds: [None], booleans, integers, strings,
    object identifiers, timestamps and embedded documents. *)
#[warnings="-register-all"]
Inductive Value : Type :=
| VNull
| VBool (b : bool)
| VInt (z : Z)
| VStr (s : string)
| VOid (o : ObjectId)
| VTime (t : Z)
| VDict (kv : list (string * Value)).

(** A Python dict, in insertion order, with one entry per key. *)
Definition Doc := list (string * Value).

Fixpoint Value_eqb (a b : Value) {struct a} : bool :=
  match a, b with
  | VNull, VNull => true
  | VBool x, VBool y => Bool.eqb x y
  | VInt x, VInt y => (x =? y)%Z
  | VStr x, VStr y => (x =? y)%string
  | VOid x, VOid y => (x =? y)%N
  | VTime x, VTime y => (x =? y)%Z
  | VDict xs, VDict ys =>
      (fix go (xs : list (string * Value)) (ys : Doc) {struct xs} : bool :=
         match xs, ys with
         | [], [] => true
         | (k, v) :: xs', (k', v') :: ys' =>
             (k =? k')%string && Value_eqb v v' && go xs' ys'
         | _, _ => false
         end) xs ys
  | _, _ => false
  end.

(** [d.get(k)] as an option: the first entry for [k]. *)
Fixpoint doc_lookup (k : string) (d : Doc) : option Value :=
  match d with
  | [] => None
  | (k', v) :: rest => if (k' =? k)%string then Some v else doc_lookup k rest
  end.

(** [d.get(k)]: [None] when the key is missing. *)
Definition doc_get (d : Doc) (k : string) : Value :=
  match doc_lookup k d with
  | Some v => v
  | None => VNull
  end.

(** [d[k] = v]: overwrite in place, or append a new entry. *)
Fixpoint doc_set (k : string) (v : Value) (d : Doc) : Doc :=
  match d with
  | [] => [(k, v)]
  | (k', v') :: rest =>
      if (k' =? k)%string then (k, v) :: rest else (k', v') :: doc_set k v rest
  end.

(** [d.update(u)], used for the [$set] of an update. *)
Definition doc_update (u d : Doc) : Doc :=
  fold_left (fun acc kv => doc_set (fst kv) (snd kv) acc) u d.

(** A stored document.  The store gives every document an [_id]; it is kept
    as a field of its own, and [fields] holds the remaining entries. *)
Record Document : Type := mkDocument {
  _id : ObjectId;
  fields : Doc
}.

(** The value a query sees under a field name. *)
Definition field (it : Document) (k : string) : option Value :=
  if (k =? "_id")%string then Some (VOid (_id it)) else doc_lookup k (fields it).

(* ------------------------------------------------------------------ *)
(** ** Queries *)

(** The conditions [main.py] puts in a filter: an exact match, or
    [{"$gte": v}]. *)
Inductive Cond : Type :=
| Eq (v : Value)
| Gte (v : Value).

Definition Query := list (string * Cond).

(** Order comparison brackets by type: a string only compares with a
    string (by code units), a number with a number. *)
Definition Value_gte (a b : Value) : bool :=
  match a, b with
  | VStr x, VStr y => String.leb y x
  | VInt x, VInt y => (y <=? x)%Z
  | VTime x, VTime y => (y <=? x)%Z
  | VBool x, VBool y => implb y x
  | _, _ => false
  end.

(** An exact match against [None] also matches a missing field. *)
Definition cond_holds (c : Cond) (v : option Value) : bool :=
  match c, v with
  | Eq q, Some x => Value_eqb x q
  | Eq q, None => Value_eqb VNull q
  | Gte q, Some x => Value_gte x q
  | Gte _, None => false
  end.

Definition matches (q : Query) (it : Document) : bool :=
  forallb (fun kc => cond_holds (snd kc) (field it (fst kc))) q.

(* ------------------------------------------------------------------ *)
(** ** The store *)

(** The five collections [main.py] addresses by name. *)
Inductive Coll : Type := donor | hospital | inventory | request | notification.

(** The database: each collection in insertion order, and the driver's
    identifier generator ([next_oid] is the next identifier it hands out). *)
Record Store : Type := mkStore {
  donors : list Document;
  hospitals : list Document;
  inventories : list Document;
  requests : list Document;
  notifications : list Document;
  next_oid : ObjectId
}.

Definition db (s : Store) (c : Coll) : list Document :=
  match c with
  | donor => donors s
  | hospital => hospitals s
  | inventory => inventories s
  | request => requests s
  | notification => notifications s
  end.

Definition set_db (c : Coll) (l : list Document) (s : Store) : Store :=
  match c with
  | donor => mkStore l (hospitals s) (inventories s) (requests s) (notifications s) (next_oid s)
  | hospital => mkStore (donors s) l (inventories s) (requests s) (notifications s) (next_oid s)
  | inventory => mkStore (donors s) (hospitals s) l (requests s) (notifications s) (next_oid s)
  | request => mkStore (donors s) (hospitals s) (inventories s) l (notifications s) (next_oid s)
  | notification => mkStore (donors s) (hospitals s) (inventories s) (requests s) l (next_oid s)
  end.

Definition empty_store : Store := mkStore [] [] [] [] [] 1%N.

(* ------------------------------------------------------------------ *)
(** ** Exceptions and the handler monad *)

Inductive exn : Type :=
| HTTPException (status_code : Z) (detail : string)
| InvalidId
| TypeError
| KeyError (key : string).

Inductive outcome (A : Type) : Type :=
| Return (a : A)
| Raise (e : exn).

Arguments Return {A} a.
Arguments Raise {A} e.

(** A handler step: it reads and writes the store, and either returns or
    raises.  The store that comes out of a raise is the one the exception
    left behind: nothing is rolled back. *)
Definition M (A : Type) : Type := Store -> outcome A * Store.

Definition ret {A} (a : A) : M A := fun s => (Return a, s).

Definition raise {A} (e : exn) : M A := fun s => (Raise e, s).

Definition bind {A B} (m : M A) (k : A -> M B) : M B :=
  fun s =>
    match m s with
    | (Return a, s') => k a s'
    | (Raise e, s') => (Raise e, s')
    end.

(** [try: m except Exception: h]. *)
Definition try_except {A} (m : M A) (h : exn -> M A) : M A :=
  fun s =>
    match m s with
    | (Return a, s') => (Return a, s')
    | (Raise e, s') => h e s'
    end.

Declare Scope handler_scope.
Delimit Scope handler_scope with handler.
Notation "x <- m ;; k" := (bind m (fun x => k))
  (at level 61, m at next level, right associativity) : handler_scope.
Notation "m ;;; k" := (bind m (fun _ => k))
  (at level 61, right associativity) : handler_scope.
Open Scope handler_scope.

(* ------------------------------------------------------------------ *)
(** ** The driver's operations on a collection *)

(** [ObjectId()]: a newly generated identifier. *)
Definition ObjectId_generate : M ObjectId :=
  fun s =>
    (Return (next_oid s),
     mkStore (donors s) (hospitals s) (inventories s) (requests s)
             (notifications s) (N.succ (next_oid s))).

(** [ObjectId(v)]: [None] generates an identifier, an identifier is copied,
    a string must be 24 characters that [bytes.fromhex] reads ([InvalidId]
    otherwise), and
    any other value is a [TypeError]. *)
Definition ObjectId_init (v : Value) : M ObjectId :=
  match v with
  | VNull => ObjectId_generate
  | VOid o => ret o
  | VStr s =>
      match ObjectId_of_str s with
      | Some o => ret o
      | None => raise InvalidId
      end
  | _ => raise TypeError
  end.

(** [db[c].insert_one(data)]: the document gets a generated [_id] and goes
    to the end of the collection. *)
Definition insert_one (c : Coll) (data : Doc) : M ObjectId :=
  i <- ObjectId_generate ;;
  fun s => (Return i, set_db c (db s c ++ [mkDocument i data]) s).

(** [db[c].find(q)]. *)
Definition find (c : Coll) (q : Query) : M (list Document) :=
  fun s => (Return (filter (matches q) (db s c)), s).

(** [db[c].find_one(q)]: the first match, or [None]. *)
Definition find_one (c : Coll) (q : Query) : M (option Document) :=
  fun s => (Return (List.find (matches q) (db s c)), s).

Fixpoint update_first (q : Query) (u : Doc) (l : list Document)
  : list Document * Z :=
  match l with
  | [] => ([], 0)
  | it :: rest =>
      if matches q it
      then (mkDocument (_id it) (doc_update u (fields it)) :: rest, 1)
      else let (rest', n) := update_first q u rest in (it :: rest', n)
  end.

(** [db[c].update_one(q, {"$set": u})]: the first match gets the fields of
    [u]; the result is [matched_count]. *)
Definition update_one (c : Coll) (q : Query) (u : Doc) : M Z :=
  fun s =>
    let (l, n) := update_first q u (db s c) in
    (Return n, set_db c l s).

Fixpoint delete_first (q : Query) (l : list Document) : list Document * Z :=
  match l with
  | [] => ([], 0)
  | it :: rest =>
      if matches q it then (rest, 1)
      else let (rest', n) := delete_first q rest in (it :: rest', n)
  end.

(** [db[c].delete_one(q)]: the result is [deleted_count]. *)
Definition delete_one (c : Coll) (q : Query) : M Z :=
  fun s =>
    let (l, n) := delete_first q (db s c) in
    (Return n, set_db c l s).

(* ------------------------------------------------------------------ *)
(** ** The gateway of [database.py] *)

(** Modelled from the spec: [create_document] of [database.py], which is
    not among the sources.  "create(collection_name, record) -> id:
    validates nothing further, serializes the record, inserts it, returns a
    newly generated unique identifier."  The identifier comes back as a
    string, which is how [main.py] uses it. *)
Definition create_document (collection_name : Coll) (data : Doc) : M string :=
  inserted_id <- insert_one collection_name data ;;
  ret (str_ObjectId inserted_id).

(** Modelled from the spec: [get_documents] of [database.py], which is not
    among the sources.  "list(collection_name, filter, limit) -> sequence
    of records: returns all documents matching [the] filter; limit = none
    means unbounded", in insertion order.  The records still carry [_id]:
    the handlers of [main.py] pop it themselves. *)
Definition get_documents (collection_name : Coll) (filter_dict : Query)
    (limit : option nat) : M (list Document) :=
  items <- find collection_name filter_dict ;;
  match limit with
  | Some n => ret (firstn n items)
  | None => ret items
  end.

(* ------------------------------------------------------------------ *)
(** ** Dates *)

Record date : Type := mkDate { year : N; month : N; day : N }.

Fixpoint decimal (k : nat) (n : N) (acc : string) : string :=
  match k with
  | O => acc
  | S k' => decimal k' (n / 10)%N (String (ascii_of_N (48 + n mod 10)) acc)
  end.

(** [d.isoformat()]: [YYYY-MM-DD]. *)
Definition isoformat (d : date) : string :=
  decimal 4 (year d) EmptyString ++ "-"
    ++ decimal 2 (month d) EmptyString ++ "-"
    ++ decimal 2 (day d) EmptyString.

(* ------------------------------------------------------------------ *)
(** ** The schemas of [schemas.py] *)

Definition BloodGroup : list string :=
  ["A+"; "A-"; "B+"; "B-"; "AB+"; "AB-"; "O+"; "O-"].

Definition literal (allowed : list string) (s : string) : bool :=
  existsb (String.eqb s) allowed.

Definition optional {A} (f : A -> Value) (o : option A) : Value :=
  match o with
  | Some a => f a
  | None => VNull
  end.

Module Donor.
Record t : Type := make {
  name : string;
  email : string;
  phone : string;
  age : Z;
  blood_group : string;
  health_ok : bool;
  city : option string;
  eligible : bool
}.

Definition model_dump (p : t) : Doc :=
  [("name", VStr (name p)); ("email", VStr (email p));
   ("phone", VStr (phone p)); ("age", VInt (age p));
   ("blood_group", VStr (blood_group p)); ("health_ok", VBool (health_ok p));
   ("city", optional VStr (city p)); ("eligible", VBool (eligible p))].
End Donor.

Module Hospital.
Record t : Type := make {
  name : string;
  email : string;
  phone : string;
  city : option string
}.

Definition model_dump (p : t) : Doc :=
  [("name", VStr (name p)); ("email", VStr (email p));
   ("phone", VStr (phone p)); ("city", optional VStr (city p))].
End Hospital.

Module Inventory.
Record t : Type := make {
  hospital_id : string;
  blood_group : string;
  units : Z;
  expiry_date : date
}.

(** The gateway serializes a date to its canonical string form. *)
Definition model_dump (p : t) : Doc :=
  [("hospital_id", VStr (hospital_id p)); ("blood_group", VStr (blood_group p));
   ("units", VInt (units p)); ("expiry_date", VStr (isoformat (expiry_date p)))].
End Inventory.

Module Request.
Record t : Type := make {
  hospital_id : string;
  donor_id : string;
  blood_group : string;
  units : Z;
  status : string
}.

Definition model_dump (p : t) : Doc :=
  [("hospital_id", VStr (hospital_id p)); ("donor_id", VStr (donor_id p));
   ("blood_group", VStr (blood_group p)); ("units", VInt (units p));
   ("status", VStr (status p))].

(** The constraints of the schema: the blood group and the status are
    literals, and [units] has [ge=1]. *)
Definition validate (p : t) : bool :=
  literal BloodGroup (blood_group p) && (1 <=? units p)
  && literal ["pending"; "approved"; "declined"] (status p).
End Request.

Module Notification.
Record t : Type := make {
  to_email : option string;
  to_phone : option string;
  subject : string;
  message : string;
  meta : option Doc
}.

Definition model_dump (p : t) : Doc :=
  [("to_email", optional VStr (to_email p));
   ("to_phone", optional VStr (to_phone p));
   ("subject", VStr (subject p)); ("message", VStr (message p));
   ("meta", optional VDict (meta p))].
End Notification.

Module UpdateStatus.
Record t : Type := make { status : string }.
End UpdateStatus.

(* ------------------------------------------------------------------ *)
(** ** The handlers of [main.py] *)

(** [if v: q[k] = v] for an [Optional[str]] query parameter: [None] and the
    empty string are both false. *)
Definition filter_by (k : string) (v : option string) (q : Query) : Query :=
  match v with
  | Some x =>
      if (x =? EmptyString)%string then q else (q ++ [(k, Eq (VStr x))])%list
  | None => q
  end.

(** [q[k] = c] on a filter that does not hold [k] yet. *)
Definition query_set (k : string) (c : Cond) (q : Query) : Query :=
  (q ++ [(k, c)])%list.

(** [it.get(k)] on a document that came back from the store. *)
Definition get (it : Document) (k : string) : Value :=
  match field it k with
  | Some v => v
  | None => VNull
  end.

(** [it[k]] on the result of [find_one]: [None] is not subscriptable, and
    a missing key is a [KeyError]. *)
Definition subscript (it : option Document) (k : string) : M Value :=
  match it with
  | None => raise TypeError
  | Some d =>
      match field d k with
      | Some v => ret v
      | None => raise (KeyError k)
      end
  end.

(** [it["id"] = str(it.pop("_id"))]. *)
Definition expose_id (it : Document) : Doc :=
  doc_set "id" (VStr (str_ObjectId (_id it))) (fields it).

Definition oid (id_str : Value) : M ObjectId :=
  try_except (ObjectId_init id_str)
    (fun _ => raise (HTTPException 400 "Invalid object id")).

Definition compute_eligibility (donor : Donor.t) : bool :=
  (18 <=? Donor.age donor) && (Donor.age donor <=? 65) && Donor.health_ok donor.

Section Handlers.

(** The syntax check of pydantic's [EmailStr], and Python's [str] of a
    value inside an f-string: both belong to libraries outside the
    repository. *)
Variable EmailStr : string -> bool.
Variable format : Value -> string.

Definition Donor_validate (p : Donor.t) : bool :=
  EmailStr (Donor.email p)
  && (18 <=? Donor.age p) && (Donor.age p <=? 65)
  && literal BloodGroup (Donor.blood_group p).

Definition Hospital_validate (p : Hospital.t) : bool :=
  EmailStr (Hospital.email p).

Definition Inventory_validate (p : Inventory.t) : bool :=
  literal BloodGroup (Inventory.blood_group p) && (1 <=? Inventory.units p).

Definition Notification_validate (p : Notification.t) : bool :=
  match Notification.to_email p with
  | Some e => EmailStr e
  | None => true
  end.

Definition register_donor (payload : Donor.t) : M Doc :=
  let data := Donor.model_dump payload in
  let data := doc_set "eligible" (VBool (compute_eligibility payload)) data in
  donor_id <- create_document donor data ;;
  create_document notification
    [("to_email", doc_get data "email");
     ("subject", VStr "Registration Successful");
     ("message", VStr ("Hello " ++ format (doc_get data "name")
                         ++ ", your donor profile has been registered."))] ;;;
  ret [("id", VStr donor_id); ("eligible", doc_get data "eligible")].

Definition list_donors (blood_group : option string) (eligible_only : bool)
  : M (list Doc) :=
  let query : Query := [] in
  let query := filter_by "blood_group" blood_group query in
  let query :=
    if eligible_only then query_set "eligible" (Eq (VBool true)) query
    else query in
  donors <- get_documents donor query None ;;
  ret (map expose_id donors).

Definition create_hospital (payload : Hospital.t) : M Doc :=
  hid <- create_document hospital (Hospital.model_dump payload) ;;
  ret [("id", VStr hid)].


Definition add_inventory (payload : Inventory.t) : M Doc :=
  i <- oid (VStr (Inventory.hospital_id payload)) ;;
  h <- find_one hospital [("_id", Eq (VOid i))] ;;
  match h with
  | None => raise (HTTPException 404 "Hospital not found")
  | Some _ =>
      inv_id <- create_document inventory (Inventory.model_dump payload) ;;
      ret [("id", VStr inv_id)]
  end.

Definition get_inventory (today : date) (hospital_id : option string)
    (include_expired : bool) : M (list Doc) :=
  let q : Query := [] in
  let q := filter_by "hospital_id" hospital_id q in
  let q :=
    if negb include_expired
    then query_set "expiry_date" (Gte (VStr (isoformat today))) q
    else q in
  items <- get_documents inventory q None ;;
  ret (map expose_id items).

Definition remove_inventory (inv_id : string) : M Doc :=
  i <- oid (VStr inv_id) ;;
  deleted_count <- delete_one inventory [("_id", Eq (VOid i))] ;;
  if deleted_count =? 0
  then raise (HTTPException 404 "Inventory record not found")
  else ret [("status", VStr "deleted")].

Definition create_request (payload : Request.t) : M Doc :=
  i <- oid (VStr (Request.donor_id payload)) ;;
  donor_doc <- find_one donor [("_id", Eq (VOid i))] ;;
  match donor_doc with
  | None => raise (HTTPException 404 "Donor not found")
  | Some donor_doc =>
      j <- oid (VStr (Request.hospital_id payload)) ;;
      hospital_doc <- find_one hospital [("_id", Eq (VOid j))] ;;
      match hospital_doc with
      | None => raise (HTTPException 404 "Hospital not found")
      | Some hospital_doc =>
          req_id <- create_document request (Request.model_dump payload) ;;
          create_document notification
            [("to_email", get donor_doc "email");
             ("subject", VStr "Blood Request");
             ("message",
               VStr (format (get hospital_doc "name") ++ " requested "
                       ++ format (VInt (Request.units payload))
                       ++ " unit(s) of " ++ Request.blood_group payload ++ "."));
             ("meta", VDict [("request_id", VStr req_id)])] ;;;
          ret [("id", VStr req_id)]
      end
  end.

Definition list_requests (status donor_id hospital_id : option string)
  : M (list Doc) :=
  let q : Query := [] in
  let q := filter_by "status" status q in
  let q := filter_by "donor_id" donor_id q in
  let q := filter_by "hospital_id" hospital_id q in
  items <- get_documents request q None ;;
  ret (map expose_id items).

(** [utcnow] is the reading of the clock that goes into [updated_at]. *)
Definition update_request_status (utcnow : Z) (request_id : string)
    (payload : UpdateStatus.t) : M Doc :=
  let status := UpdateStatus.status payload in
  if negb (literal ["approved"; "declined"] status)
  then raise (HTTPException 400 "Status must be 'approved' or 'declined'")
  else
    i <- oid (VStr request_id) ;;
    matched_count <-
      update_one request [("_id", Eq (VOid i))]
        [("status", VStr status); ("updated_at", VTime utcnow)] ;;
    if matched_count =? 0
    then raise (HTTPException 404 "Request not found")
    else
      i' <- oid (VStr request_id) ;;
      req <- find_one request [("_id", Eq (VOid i'))] ;;
      hospital_id <- subscript req "hospital_id" ;;
      j <- oid hospital_id ;;
      hospital_doc <- find_one hospital [("_id", Eq (VOid j))] ;;
      create_document notification
        [("to_email",
           match hospital_doc with
           | Some h => get h "email"
           | None => VNull
           end);
         ("subject", VStr ("Request " ++ status));
         ("message", VStr ("Request " ++ request_id ++ " has been " ++ status
                             ++ " by the donor."))] ;;;
      ret [("status", VStr status)].

Definition create_notification (payload : Notification.t) : M Doc :=
  nid <- create_document notification (Notification.model_dump payload) ;;
  ret [("id", VStr nid)].

Definition list_notifications (limit : option nat) : M (list Doc) :=
  items <- get_documents notification [] limit ;;
  ret (map expose_id items).

(** *** The service as a transition system *)

(** The calls that write to the store.  The listing endpoints only read
    it, so they add no reachable state. *)
Inductive Call : Type :=
| POST_donors (payload : Donor.t)
| POST_hospitals (payload : Hospital.t)
| POST_inventory (payload : Inventory.t)
| DELETE_inventory (inv_id : string)
| POST_requests (payload : Request.t)
| POST_requests_status (utcnow : Z) (request_id : string)
    (payload : UpdateStatus.t)
| POST_notify (payload : Notification.t).

(** The framework validates a body against its schema before it calls
    the handler. *)
Definition accepted (c : Call) : bool :=
  match c with
  | POST_donors p => Donor_validate p
  | POST_hospitals p => Hospital_validate p
  | POST_inventory p => Inventory_validate p
  | DELETE_inventory _ => true
  | POST_requests p => Request.validate p
  | POST_requests_status _ _ _ => true
  | POST_notify p => Notification_validate p
  end.

(** The store a call leaves behind, whether it returned or raised. *)
Definition serve (c : Call) (s : Store) : Store :=
  match c with
  | POST_donors p => snd (register_donor p s)
  | POST_hospitals p => snd (create_hospital p s)
  | POST_inventory p => snd (add_inventory p s)
  | DELETE_inventory i => snd (remove_inventory i s)
  | POST_requests p => snd (create_request p s)
  | POST_requests_status t i p => snd (update_request_status t i p s)
  | POST_notify p => snd (create_notification p s)
  end.

Inductive reachable : Store -> Prop :=
| reachable_empty : reachable empty_store
| reachable_serve c s :
    reachable s -> accepted c = true -> reachable (serve c s).

(** A sequence of status updates, each with its clock reading, request
    id and body. *)
Definition status_updates (l : list (Z * string * UpdateStatus.t))
    (s : Store) : Store :=
  fold_left
    (fun acc u =>
       snd (update_request_status (fst (fst u)) (snd (fst u)) (snd u) acc))
    l s.

End Handlers.

(* ------------------------------------------------------------------ *)
(** ** Vocabulary of the properties *)

(** The filter [{"_id": i}]. *)
Definition by_id (i : ObjectId) : Query := [("_id", Eq (VOid i))].

(** What a read of the request with identifier [i] shows as its status. *)
Definition status_of (s : Store) (i : ObjectId) : option Value :=
  match List.find (matches (by_id i)) (requests s) with
  | Some it => doc_lookup "status" (fields it)
  | None => None
  end.

(** A status that the state machine calls terminal. *)
Definition settled (v : Value) : bool :=
  Value_eqb v (VStr "approved") || Value_eqb v (VStr "declined").

Definition settled_doc (it : Document) : bool :=
  match doc_lookup "status" (fields it) with
  | Some v => settled v
  | None => false
  end.

(** An identifier string is well formed when [ObjectId] accepts it. *)
Definition well_formed (id_str : string) : bool :=
  match ObjectId_of_str id_str with
  | Some _ => true
  | None => false
  end.

(** It resolves in a collection when it is well formed and a document
    carries the identifier. *)
Definition resolves (c : Coll) (id_str : string) (s : Store) : bool :=
  match ObjectId_of_str id_str with
  | Some i =>
      match List.find (matches (by_id i)) (db s c) with
      | Some _ => true
      | None => false
      end
  | None => false
  end.

(** The values [ObjectId(...)] refuses. *)
Definition unparseable (v : Value) : bool :=
  match v with
  | VNull | VOid _ => false
  | VStr h => negb (well_formed h)
  | _ => true
  end.

(** A request document whose [hospital_id] is a string that parses into an
    identifier. *)
Definition names_hospital (it : Document) : bool :=
  match doc_lookup "hospital_id" (fields it) with
  | Some (VStr h) => well_formed h
  | _ => false
  end.

(** The state machine of the specification, as a statement about the
    service: from a reachable store, no sequence of status updates changes
    the status of a request that is approved or declined. *)
Definition settled_is_terminal (EmailStr : string -> bool)
    (format : Value -> string) : Prop :=
  forall s, reachable EmailStr format s ->
  forall l i v,
    status_of s i = Some v -> settled v = true ->
    status_of (status_updates l s) i = Some v.

(** Steps that leave a component [proj] of the store alone. *)
Definition keeps {X A} (proj : Store -> X) (m : M A) : Prop :=
  forall s, proj (snd (m s)) = proj s.

(** Twelve bytes hold the identifiers below [2^96]. *)
Definition ObjectId_bound : N := (2 ^ 96)%N.

(** A listing filter [v] on field [k] lets a document through: no filter
    and the empty string constrain nothing. *)
Definition agrees (k : string) (v : option string) (it : Document) : Prop :=
  match v with
  | Some x => x = EmptyString \/ doc_lookup k (fields it) = Some (VStr x)
  | None => True
  end.

(** The fields a status update leaves alone. *)
Definition same_but_status (a b : Document) : Prop :=
  _id b = _id a
  /\ forall k, k <> "status" -> k <> "updated_at" ->
       doc_lookup k (fields b) = doc_lookup k (fields a).

(** The collections a status update has no business with. *)
Definition entities (s : Store) : list Document * list Document * list Document :=
  (donors s, hospitals s, inventories s).

(** The collections that no handler deletes from or rewrites. *)
Definition log_like (proj : Store -> list Document) : Prop :=
  proj = donors \/ proj = hospitals \/ proj = notifications.

(** Steps that only add to the end of a collection. *)
Definition appends {A} (proj : Store -> list Document) (m : M A) : Prop :=
  forall s, exists l, proj (snd (m s)) = (proj s ++ l)%list.

(** A request document whose [hospital_id] and [donor_id] are strings that
    resolve in the store. *)
Definition references_resolve (s : Store) (it : Document) : bool :=
  match doc_lookup "hospital_id" (fields it),
        doc_lookup "donor_id" (fields it) with
  | Some (VStr h), Some (VStr d) => resolves hospital h s && resolves donor d s
  | _, _ => false
  end.

(** Calendar order of dates, and the dates whose fields fit the four, two
    and two digits of the ISO form. *)
Definition date_compare (a b : date) : comparison :=
  match N.compare (year a) (year b) with
  | Datatypes.Eq =>
      match N.compare (month a) (month b) with
      | Datatypes.Eq => N.compare (day a) (day b)
      | c => c
      end
  | c => c
  end.

Definition date_leb (a b : date) : bool :=
  match date_compare a b with
  | Gt => false
  | _ => true
  end.

Definition fits_iso (d : date) : bool :=
  ((year d <? 10000) && (month d <? 100) && (day d <? 100))%N.

(** *** Sample data *)

(** A permissive stand-in for [EmailStr]: the address has an [@]. *)
Definition has_at (e : string) : bool :=
  existsb (Ascii.eqb "@") (list_ascii_of_string e).

(** A stand-in for [str] that prints strings as they are. *)
Definition plain (v : Value) : string :=
  match v with
  | VStr x => x
  | _ => EmptyString
  end.

Definition donor_A : Donor.t :=
  Donor.make "A" "a@x.com" "1" 30 "O+" true None true.

Definition hospital_H : Hospital.t :=
  Hospital.make "H" "h@x.org" "2" None.

(** The store after donor [A] and hospital [H] have been created: the donor
    has identifier 1 and the hospital 3. *)
Definition store_AH : Store :=
  serve plain (POST_hospitals hospital_H)
    (serve plain (POST_donors donor_A) empty_store).

Definition request_AH : Request.t :=
  Request.make (str_ObjectId 3%N) (str_ObjectId 1%N) "O+" 2 "pending".

(** The request of [request_AH] is stored under identifier 4. *)
Definition store_AH_pending : Store :=
  serve plain (POST_requests request_AH) store_AH.

(** The same store once the donor has approved the request. *)
Definition store_AH_approved : Store :=
  serve plain
    (POST_requests_status 10 (str_ObjectId 4%N) (UpdateStatus.make "approved"))
    store_AH_pending.

(** A valid request body whose [donor_id] is no identifier; its hospital
    is [H]. *)
Definition request_no_donor : Request.t :=
  Request.make (str_ObjectId 3%N) "abc" "O+" 1 "pending".

(** A batch of two units for hospital [H], and the store once it has been
    added: the batch is stored under identifier 4. *)
Definition batch_H : Inventory.t :=
  Inventory.make (str_ObjectId 3%N) "O+" 2 (mkDate 2030 1 15).

Definition store_AH_stock : Store :=
  serve plain (POST_inventory batch_H) store_AH.

(** A donor who does not declare good health. *)
Definition donor_B : Donor.t :=
  Donor.make "B" "b@x.com" "3" 40 "A-" false None true.

(** A string of 24 characters that [bytes.fromhex] reads as eight zero
    bytes: the constructor accepts it, and no stored document carries the
    identifier it gives. *)
Definition spaced_id : string := "00 00 00 00 00 00 00 00 ".

(** A valid request body whose [donor_id] is [spaced_id]; its hospital is
    [H]. *)
Definition request_spaced_donor : Request.t :=
  Request.make (str_ObjectId 3%N) spaced_id "O+" 1 "pending".

(** A store written from outside the service whose one request names its
    hospital by [spaced_id]. *)
Definition store_spaced : Store :=
  mkStore [] [] []
    [mkDocument 7%N
       [("hospital_id", VStr spaced_id); ("status", VStr "pending")]]
    [] 8%N.

(** A store nobody reaches through the service: its one request names a
    hospital by a string that is no identifier. *)
Definition store_stray : Store :=
  mkStore [] [] []
    [mkDocument 7%N [("hospital_id", VStr "nowhere"); ("status", VStr "pending")]]
    [] 8%N.


(* ================================================================== *)
(** * Properties *)

(* ------------------------------------------------------------------ *)
(** ** Dicts and filters *)

Lemma doc_lookup_set_eq (k : string) (v : Value) (d : Doc) :
  doc_lookup k (doc_set k v d) = Some v.
Proof.
  induction d as [|[k' v'] d IH]; simpl.
  - now rewrite String.eqb_refl.
  - destruct (k' =? k)%string eqn:E; simpl.
    + now rewrite String.eqb_refl.
    + now rewrite E.
Qed.

Lemma doc_lookup_set_neq (k k' : string) (v : Value) (d : Doc) :
  k' <> k -> doc_lookup k (doc_set k' v d) = doc_lookup k d.
Proof.
  intros Hne. induction d as [|[k0 v0] d IH]; simpl.
  - destruct (String.eqb_spec k' k); congruence.
  - destruct (String.eqb_spec k0 k') as [->|Hk0]; simpl.
    + destruct (String.eqb_spec k' k); congruence.
    + now rewrite IH.
Qed.

Lemma lookup_expose_id (k : string) (it : Document) :
  k <> "id" -> doc_lookup k (expose_id it) = doc_lookup k (fields it).
Proof.
  intros Hk. unfold expose_id. apply doc_lookup_set_neq. congruence.
Qed.

Lemma matches_app (q q' : Query) (it : Document) :
  matches (q ++ q')%list it = matches q it && matches q' it.
Proof. unfold matches. apply forallb_app. Qed.

Lemma matches_by_id (i : ObjectId) (it : Document) :
  matches (by_id i) it = (_id it =? i)%N.
Proof. unfold matches, by_id, field; simpl. apply andb_true_r. Qed.

Lemma Value_eqb_bool (v : Value) (b : bool) :
  Value_eqb v (VBool b) = true -> v = VBool b.
Proof.
  destruct v; simpl; try discriminate.
  intros H. apply Bool.eqb_prop in H. now subst.
Qed.

Lemma Value_gte_str (v : Value) (t : string) :
  Value_gte v (VStr t) = true -> exists e, v = VStr e /\ String.leb t e = true.
Proof.
  destruct v; simpl; try discriminate. intros H. now exists s.
Qed.

Lemma leb_not_ltb (t e : string) :
  String.leb t e = true -> String.ltb e t = false.
Proof.
  unfold String.leb, String.ltb. rewrite (String.compare_antisym e t).
  destruct (String.compare t e); simpl; congruence.
Qed.

(** A document that passes a filter ending in [k: c] satisfies [c]. *)
Lemma matches_last (q : Query) (k : string) (c : Cond) (it : Document) :
  matches (query_set k c q) it = true -> cond_holds c (field it k) = true.
Proof.
  unfold query_set. rewrite matches_app. intros H.
  apply andb_true_iff in H. destruct H as [_ H].
  unfold matches in H. simpl in H. now rewrite andb_true_r in H.
Qed.

(* ------------------------------------------------------------------ *)
(** ** Identifiers *)

Lemma oid_str (x : string) (s : Store) :
  oid (VStr x) s =
    match ObjectId_of_str x with
    | Some i => (Return i, s)
    | None => (Raise (HTTPException 400 "Invalid object id"), s)
    end.
Proof.
  unfold oid, try_except, ObjectId_init.
  now destruct (ObjectId_of_str x).
Qed.

Lemma oid_unparseable (v : Value) (s : Store) :
  unparseable v = true ->
  oid v s = (Raise (HTTPException 400 "Invalid object id"), s).
Proof.
  unfold oid, try_except, ObjectId_init, unparseable, well_formed.
  destruct v; try discriminate; try reflexivity.
  now destruct (ObjectId_of_str s0).
Qed.

Section Properties.

Variable EmailStr : string -> bool.
Variable format : Value -> string.

(* ------------------------------------------------------------------ *)
(** ** Donors *)

Lemma register_donor_run (p : Donor.t) (s : Store) :
  let data := doc_set "eligible" (VBool (compute_eligibility p))
                (Donor.model_dump p) in
  register_donor format p s =
    (Return [("id", VStr (str_ObjectId (next_oid s)));
             ("eligible", VBool (compute_eligibility p))],
     mkStore (donors s ++ [mkDocument (next_oid s) data])%list (hospitals s)
       (inventories s) (requests s)
       (notifications s ++
          [mkDocument (N.succ (next_oid s))
             [("to_email", VStr (Donor.email p));
              ("subject", VStr "Registration Successful");
              ("message",
                VStr ("Hello " ++ format (VStr (Donor.name p))
                        ++ ", your donor profile has been registered."))]])%list
       (N.succ (N.succ (next_oid s)))).
Proof. reflexivity. Qed.

(** C1. For every donor payload that passes validation, the computed
    eligibility is [(age >= 18) and (age <= 65) and health_ok]; validation
    has already refused an age outside 18..65, so the eligibility equals
    [health_ok], and that is the [eligible] field of the document that
    registration stores. *)
Theorem eligible_is_health_ok (p : Donor.t) (s : Store) :
  Donor_validate EmailStr p = true ->
  compute_eligibility p
    = (Donor.age p >=? 18) && (Donor.age p <=? 65) && Donor.health_ok p
  /\ compute_eligibility p = Donor.health_ok p
  /\ exists data,
       donors (snd (register_donor format p s))
         = (donors s ++ [mkDocument (next_oid s) data])%list
       /\ doc_lookup "eligible" data = Some (VBool (Donor.health_ok p)).
Proof.
  intros Hv. unfold Donor_validate in Hv.
  repeat (apply andb_true_iff in Hv; destruct Hv as [Hv ?]).
  assert (He : compute_eligibility p = Donor.health_ok p).
  { unfold compute_eligibility.
    replace (18 <=? Donor.age p) with true by (symmetry; assumption).
    replace (Donor.age p <=? 65) with true by (symmetry; assumption).
    reflexivity. }
  split; [|split].
  - unfold compute_eligibility. now rewrite Z.geb_leb.
  - exact He.
  - rewrite register_donor_run. cbv zeta. cbn [snd donors].
    eexists. split; [reflexivity|].
    rewrite doc_lookup_set_eq. now rewrite He.
Qed.

(** C7. With [eligible_only] true (the default), the donor list never
    holds a record whose [eligible] field is false: the call returns, the
    store is as before, and every record returned has [eligible] true. *)
Theorem list_donors_eligible_only (blood_group : option string) (s : Store) :
  exists ds,
    list_donors blood_group true s = (Return ds, s)
    /\ Forall (fun d => doc_lookup "eligible" d = Some (VBool true)) ds.
Proof.
  eexists. split; [reflexivity|].
  apply Forall_forall. intros d Hd.
  apply in_map_iff in Hd. destruct Hd as [it [<- Hit]].
  apply filter_In in Hit. destruct Hit as [_ Hm].
  apply matches_last in Hm. unfold field in Hm. simpl in Hm.
  rewrite lookup_expose_id by discriminate.
  destruct (doc_lookup "eligible" (fields it)) as [v|]; simpl in Hm.
  - now rewrite (Value_eqb_bool _ _ Hm).
  - discriminate.
Qed.

(** C9. Two donor payloads that differ only in the [eligible] value the
    client sent are registered alike: the same document is stored and the
    same response comes back, and the eligibility in both is the one
    computed from [age] and [health_ok]. *)
Theorem register_donor_ignores_eligible
    (name email phone : string) (age : Z) (blood_group : string)
    (health_ok : bool) (city : option string) (e1 e2 : bool) (s : Store) :
  let p1 := Donor.make name email phone age blood_group health_ok city e1 in
  let p2 := Donor.make name email phone age blood_group health_ok city e2 in
  register_donor format p1 s = register_donor format p2 s
  /\ fst (register_donor format p1 s)
     = Return [("id", VStr (str_ObjectId (next_oid s)));
               ("eligible", VBool ((18 <=? age) && (age <=? 65) && health_ok))]
  /\ exists data,
       donors (snd (register_donor format p1 s))
         = (donors s ++ [mkDocument (next_oid s) data])%list
       /\ doc_lookup "eligible" data
          = Some (VBool ((18 <=? age) && (age <=? 65) && health_ok)).
Proof.
  intros p1 p2. split; [reflexivity|]. split; [reflexivity|].
  eexists. split; reflexivity.
Qed.

(** C8. Registering the donor [A] (a\@x.com, phone 1, age 30, O+, in good
    health) passes validation, returns the generated identifier with
    [eligible] true, stores the donor under that identifier, and leaves a
    notification with subject "Registration Successful" addressed to
    a\@x.com in the store. *)
Theorem register_donor_A (s : Store) :
  EmailStr "a@x.com" = true ->
  Donor_validate EmailStr donor_A = true
  /\ fst (register_donor format donor_A s)
     = Return [("id", VStr (str_ObjectId (next_oid s)));
               ("eligible", VBool true)]
  /\ (exists data,
        In (mkDocument (next_oid s) data)
           (donors (snd (register_donor format donor_A s))))
  /\ exists n,
       In n (notifications (snd (register_donor format donor_A s)))
       /\ doc_lookup "subject" (fields n) = Some (VStr "Registration Successful")
       /\ doc_lookup "to_email" (fields n) = Some (VStr "a@x.com").
Proof.
  intros He. split.
  - unfold Donor_validate. simpl. now rewrite He.
  - rewrite register_donor_run. split; [reflexivity|]. split.
    + eexists. simpl. apply in_or_app. right. left. reflexivity.
    + eexists. split.
      * simpl. apply in_or_app. right. left. reflexivity.
      * split; reflexivity.
Qed.

(* ------------------------------------------------------------------ *)
(** ** Inventory *)

(** C6. With [include_expired] false, the inventory list never holds a
    record whose [expiry_date] is strictly before today: every record
    returned has a string [expiry_date] that is not below today's ISO 8601
    form in the lexicographic order of strings. *)
Theorem get_inventory_not_expired (today : date) (hospital_id : option string)
    (s : Store) :
  exists items,
    get_inventory today hospital_id false s = (Return items, s)
    /\ Forall
         (fun d =>
            exists e,
              doc_lookup "expiry_date" d = Some (VStr e)
              /\ String.leb (isoformat today) e = true
              /\ String.ltb e (isoformat today) = false)
         items.
Proof.
  eexists. split; [reflexivity|].
  apply Forall_forall. intros d Hd.
  apply in_map_iff in Hd. destruct Hd as [it [<- Hit]].
  apply filter_In in Hit. destruct Hit as [_ Hm].
  apply matches_last in Hm. unfold field in Hm. simpl in Hm.
  rewrite lookup_expose_id by discriminate.
  destruct (doc_lookup "expiry_date" (fields it)) as [v|]; simpl in Hm.
  - apply Value_gte_str in Hm. destruct Hm as [e [-> Hle]].
    exists e. auto using leb_not_ltb.
  - discriminate.
Qed.

(* ------------------------------------------------------------------ *)
(** ** Creating a request *)

(** C3, as the code has it.  When [donor_id] or [hospital_id] does not
    resolve, creating a request fails and leaves the store as it was, so no
    request and no notification is inserted.  The donor is looked up first;
    the first identifier that does not resolve decides the error: 404 when
    it is a well-formed identifier with no document, 400 "Invalid object
    id" when it is not an identifier at all. *)
Theorem create_request_unresolved (payload : Request.t) (s : Store) :
  resolves donor (Request.donor_id payload) s = false
  \/ resolves hospital (Request.hospital_id payload) s = false ->
  create_request format payload s =
    (Raise
       (if resolves donor (Request.donor_id payload) s
        then if well_formed (Request.hospital_id payload)
             then HTTPException 404 "Hospital not found"
             else HTTPException 400 "Invalid object id"
        else if well_formed (Request.donor_id payload)
             then HTTPException 404 "Donor not found"
             else HTTPException 400 "Invalid object id"),
     s).
Proof.
  intros H. unfold create_request, bind. rewrite oid_str.
  unfold resolves, well_formed in *.
  destruct (ObjectId_of_str (Request.donor_id payload)) as [i|]; [|reflexivity].
  unfold find_one. fold (by_id i).
  destruct (List.find (matches (by_id i)) (db s donor)) as [d|]; [|reflexivity].
  rewrite oid_str.
  destruct (ObjectId_of_str (Request.hospital_id payload)) as [j|]; [|reflexivity].
  fold (by_id j).
  destruct (List.find (matches (by_id j)) (db s hospital)) as [h|]; [|reflexivity].
  destruct H; discriminate.
Qed.

(* ------------------------------------------------------------------ *)
(** ** Updating the status of a request *)

(** C4. A new status other than "approved" or "declined" is refused with
    400 whatever the request id, and the store, hence the stored status of
    every request, is as before. *)
Theorem update_request_status_invalid (utcnow : Z) (request_id : string)
    (status : string) (s : Store) :
  literal ["approved"; "declined"] status = false ->
  update_request_status utcnow request_id (UpdateStatus.make status) s
    = (Raise (HTTPException 400 "Status must be 'approved' or 'declined'"), s).
Proof.
  intros H. unfold update_request_status.
  cbv zeta. cbn [UpdateStatus.status]. now rewrite H.
Qed.

Lemma doc_lookup_update_status (k : string) (v t : Value) (d : Doc) :
  doc_lookup k (doc_update [("status", v); ("updated_at", t)] d)
    = if (k =? "status")%string then Some v
      else if (k =? "updated_at")%string then Some t
      else doc_lookup k d.
Proof.
  unfold doc_update; simpl.
  destruct (String.eqb_spec k "status") as [->|Hs].
  - rewrite doc_lookup_set_neq by discriminate. apply doc_lookup_set_eq.
  - destruct (String.eqb_spec k "updated_at") as [->|Hu].
    + apply doc_lookup_set_eq.
    + now rewrite !doc_lookup_set_neq by congruence.
Qed.

Lemma update_first_unmatched (q : Query) (u : Doc) (l : list Document) :
  List.find (matches q) l = None -> update_first q u l = (l, 0).
Proof.
  induction l as [|a l IH]; cbn [List.find update_first]; [reflexivity|].
  destruct (matches q a); [discriminate|].
  intros H. now rewrite (IH H).
Qed.

(** After [update_one] has matched, a read by the same identifier finds the
    updated document. *)
Lemma update_first_matched (i : ObjectId) (u : Doc) (l : list Document)
    (it : Document) :
  List.find (matches (by_id i)) l = Some it ->
  snd (update_first (by_id i) u l) = 1
  /\ List.find (matches (by_id i)) (fst (update_first (by_id i) u l))
     = Some (mkDocument (_id it) (doc_update u (fields it))).
Proof.
  induction l as [|a l IH]; cbn [List.find update_first];
    [discriminate|].
  destruct (matches (by_id i) a) eqn:Ea.
  - intros [= <-]. cbn [fst snd List.find]. split; [reflexivity|].
    rewrite matches_by_id in *. cbn [_id]. now rewrite Ea.
  - intros H. destruct (IH H) as [H1 H2].
    destruct (update_first (by_id i) u l) as [l' n]. cbn [fst snd] in *.
    cbn [List.find]. now rewrite Ea.
Qed.

(** An update to a settled status keeps every settled request settled,
    whichever request it lands on. *)
Lemma update_first_settled (k i : ObjectId) (st : string) (t : Value)
    (l : list Document) (it : Document) :
  settled (VStr st) = true ->
  List.find (matches (by_id i)) l = Some it -> settled_doc it = true ->
  exists it',
    List.find (matches (by_id i))
      (fst (update_first (by_id k) [("status", VStr st); ("updated_at", t)] l))
      = Some it'
    /\ settled_doc it' = true.
Proof.
  intros Hst. induction l as [|a l IH]; cbn [List.find update_first];
    [discriminate|].
  intros Hf Hs.
  destruct (matches (by_id k) a) eqn:Ek; cbn [fst List.find].
  - rewrite !matches_by_id in *. cbn [_id].
    destruct (_id a =? i)%N eqn:Ei.
    + eexists. split; [reflexivity|].
      unfold settled_doc. cbn [fields].
      now rewrite doc_lookup_update_status.
    + eauto.
  - destruct (update_first (by_id k) _ l) as [l' n] eqn:El.
    cbn [fst List.find] in *.
    destruct (matches (by_id i) a) eqn:Ei.
    + injection Hf as <-. eauto.
    + apply IH; assumption.
Qed.

Lemma keeps_ret {X A} (proj : Store -> X) (a : A) : keeps proj (ret a).
Proof. now intros s. Qed.

Lemma keeps_raise {X A} (proj : Store -> X) (e : exn) :
  keeps proj (@raise A e).
Proof. now intros s. Qed.

Lemma keeps_bind {X A B} (proj : Store -> X) (m : M A) (k : A -> M B) :
  keeps proj m -> (forall a, keeps proj (k a)) -> keeps proj (bind m k).
Proof.
  intros Hm Hk s. unfold bind. specialize (Hm s).
  destruct (m s) as [[a|e] s']; simpl in *.
  - now rewrite Hk.
  - assumption.
Qed.

Lemma keeps_find_one {X} (proj : Store -> X) (c : Coll) (q : Query) :
  keeps proj (find_one c q).
Proof. now intros s. Qed.

Lemma keeps_subscript {X} (proj : Store -> X) (it : option Document)
    (k : string) :
  keeps proj (subscript it k).
Proof.
  intros s. unfold subscript.
  destruct it as [d|]; [destruct (field d k)|]; reflexivity.
Qed.

Lemma oid_keeps_requests (v : Value) : keeps requests (oid v).
Proof.
  intros s. unfold oid, try_except, ObjectId_init.
  destruct v; try reflexivity.
  now destruct (ObjectId_of_str s0).
Qed.

Lemma notification_keeps_requests (data : Doc) :
  keeps requests (create_document notification data).
Proof. now intros s. Qed.

Create HintDb keeps.

#[local] Hint Resolve keeps_ret keeps_raise keeps_find_one keeps_subscript
  oid_keeps_requests notification_keeps_requests : keeps.

(** The requests after a status update: as before, or as [update_one] with
    a valid status left them. *)
Lemma update_request_status_requests (utcnow : Z) (request_id : string)
    (payload : UpdateStatus.t) (s : Store) :
  requests (snd (update_request_status utcnow request_id payload s))
    = requests s
  \/ settled (VStr (UpdateStatus.status payload)) = true
     /\ exists k,
          requests (snd (update_request_status utcnow request_id payload s))
            = fst (update_first (by_id k)
                     [("status", VStr (UpdateStatus.status payload));
                      ("updated_at", VTime utcnow)]
                     (requests s)).
Proof.
  remember (update_request_status utcnow request_id payload s) as r eqn:Er.
  unfold update_request_status in Er. cbv zeta in Er.
  destruct (literal ["approved"; "declined"] (UpdateStatus.status payload))
    eqn:Hl; cbn [negb] in Er; [|subst r; now left].
  assert (Hs : settled (VStr (UpdateStatus.status payload)) = true).
  { unfold literal in Hl. simpl in Hl. rewrite orb_false_r in Hl.
    exact Hl. }
  unfold bind at 1 in Er. rewrite oid_str in Er.
  destruct (ObjectId_of_str request_id) as [k|]; [|subst r; now left].
  unfold bind at 1 in Er. unfold update_one in Er. fold (by_id k) in Er.
  cbn [db] in Er.
  right. split; [exact Hs|]. exists k.
  destruct (update_first (by_id k) _ (requests s)) as [l n].
  cbn [fst]. destruct (n =? 0); subst r; [reflexivity|].
  match goal with
  | |- requests (snd (?m ?s1)) = _ =>
      assert (K : keeps requests m); [|exact (K s1)]
  end.
  repeat (apply keeps_bind; [auto with keeps|intros ?]); auto with keeps.
Qed.

Lemma status_update_keeps_settled (utcnow : Z) (request_id : string)
    (payload : UpdateStatus.t) (s : Store) (i : ObjectId) (v : Value) :
  status_of s i = Some v -> settled v = true ->
  exists v',
    status_of (snd (update_request_status utcnow request_id payload s)) i
      = Some v'
    /\ settled v' = true.
Proof.
  unfold status_of. intros Hv Hs.
  destruct (update_request_status_requests utcnow request_id payload s)
    as [->|[Hst [k ->]]]; [eauto|].
  destruct (List.find (matches (by_id i)) (requests s)) as [it|] eqn:Ef;
    [|discriminate].
  destruct (@update_first_settled k i _ (VTime utcnow) _ it Hst Ef)
    as [it' [-> Hit']].
  - unfold settled_doc. now rewrite Hv.
  - unfold settled_doc in Hit'.
    destruct (doc_lookup "status" (fields it')) as [v'|]; [eauto|discriminate].
Qed.

(** C2, as the code has it.  From any store, reachable or not, and through
    any sequence of status updates, a request that is approved or declined
    stays approved or declined: it never goes back to pending.  (The update
    does not look at the current status, so approved can become declined and
    declined can become approved.) *)
Theorem settled_stays_settled (l : list (Z * string * UpdateStatus.t))
    (s : Store) (i : ObjectId) (v : Value) :
  status_of s i = Some v -> settled v = true ->
  exists v',
    status_of (status_updates l s) i = Some v' /\ settled v' = true.
Proof.
  revert s v. induction l as [|[[t r] p] l IH]; intros s v Hv Hs.
  - exists v. now split.
  - unfold status_updates. simpl fold_left.
    destruct (status_update_keeps_settled t r p s i Hv Hs) as [v1 [H1 H2]].
    exact (IH _ _ H1 H2).
Qed.

(** The first half of a status update on an existing request with a valid
    status: the write has happened, the request has been read back, and
    what is left is the lookup of the hospital and the notification. *)
Ltac run_update i Er Hl Hp Hf Hh :=
  unfold update_request_status in Er; cbv zeta in Er;
  cbn [UpdateStatus.status] in Er; rewrite Hl in Er; cbn [negb] in Er;
  unfold bind at 1 in Er; rewrite oid_str, Hp in Er;
  unfold bind at 1 in Er; unfold update_one in Er;
  fold (by_id i) in Er; cbn [db] in Er;
  match type of Er with
  | context [update_first (by_id i) ?u ?l] =>
      let Hn := fresh "Hn" in
      let Hr := fresh "Hr" in
      let l' := fresh "l'" in
      let n := fresh "n" in
      destruct (@update_first_matched i u _ _ Hf) as [Hn Hr];
      destruct (update_first (by_id i) u l) as [l' n];
      cbn [fst snd] in Hn, Hr; subst n; cbn [Z.eqb] in Er;
      unfold bind at 1 in Er; rewrite oid_str, Hp in Er;
      unfold bind at 1 in Er; unfold find_one at 1 in Er;
      fold (by_id i) in Er; cbn [db set_db requests] in Er;
      rewrite Hr in Er; cbv beta iota in Er;
      unfold bind at 1 in Er; unfold subscript, field in Er;
      cbn [String.eqb Ascii.eqb Bool.eqb fields] in Er;
      rewrite doc_lookup_update_status in Er;
      cbn [String.eqb Ascii.eqb Bool.eqb] in Er; rewrite Hh in Er;
      unfold ret at 1 in Er; cbv beta iota in Er
  end.

(** C10. When the [hospital_id] stored in an existing request is not
    parseable into an identifier, a status update with a valid status
    raises 400 "Invalid object id" after the new status has been written:
    a read of the request shows the new status, and no notification has
    been inserted. *)
Theorem update_request_status_not_atomic (utcnow : Z) (request_id : string)
    (status : string) (s : Store) (i : ObjectId) (it : Document) (v : Value) :
  literal ["approved"; "declined"] status = true ->
  ObjectId_of_str request_id = Some i ->
  List.find (matches (by_id i)) (requests s) = Some it ->
  doc_lookup "hospital_id" (fields it) = Some v ->
  unparseable v = true ->
  let r := update_request_status utcnow request_id
             (UpdateStatus.make status) s in
  fst r = Raise (HTTPException 400 "Invalid object id")
  /\ status_of (snd r) i = Some (VStr status)
  /\ notifications (snd r) = notifications s.
Proof.
  intros Hl Hp Hf Hh Hu r. unfold r; clear r.
  remember (update_request_status utcnow request_id
              (UpdateStatus.make status) s) as r eqn:Er.
  run_update i Er Hl Hp Hf Hh.
  unfold bind at 1 in Er. rewrite (oid_unparseable _ _ Hu) in Er.
  subst r. cbn [fst snd]. split; [reflexivity|]. split; [|reflexivity].
  unfold status_of. cbn [requests]. rewrite Hr. cbn [fields].
  now rewrite doc_lookup_update_status.
Qed.

(** C5, as the code has it.  For an existing request whose stored
    [hospital_id] parses into an identifier, and a status among approved
    and declined, one status update returns without error, inserts exactly
    one notification, whose [to_email] is the email of the hospital with
    that identifier, or [None] when there is no such hospital, and a read
    of the request afterwards shows the new status. *)
Theorem update_request_status_notifies (utcnow : Z) (request_id : string)
    (status : string) (s : Store) (i j : ObjectId) (it : Document)
    (h : string) :
  literal ["approved"; "declined"] status = true ->
  ObjectId_of_str request_id = Some i ->
  List.find (matches (by_id i)) (requests s) = Some it ->
  doc_lookup "hospital_id" (fields it) = Some (VStr h) ->
  ObjectId_of_str h = Some j ->
  let r := update_request_status utcnow request_id
             (UpdateStatus.make status) s in
  let to_email :=
    match List.find (matches (by_id j)) (hospitals s) with
    | Some hospital_doc => get hospital_doc "email"
    | None => VNull
    end in
  fst r = Return [("status", VStr status)]
  /\ (exists message,
        notifications (snd r)
          = (notifications s ++
               [mkDocument (next_oid s)
                  [("to_email", to_email);
                   ("subject", VStr ("Request " ++ status));
                   ("message", message)]])%list)
  /\ status_of (snd r) i = Some (VStr status).
Proof.
  intros Hl Hp Hf Hh Hj r to_email. unfold r, to_email; clear r to_email.
  remember (update_request_status utcnow request_id
              (UpdateStatus.make status) s) as r eqn:Er.
  run_update i Er Hl Hp Hf Hh.
  unfold bind at 1 in Er. rewrite oid_str, Hj in Er.
  unfold bind at 1 in Er. unfold find_one at 1 in Er.
  fold (by_id j) in Er. cbn [db set_db hospitals] in Er.
  subst r. split; [reflexivity|]. split.
  - eexists. reflexivity.
  - unfold status_of.
    match goal with
    | |- context [requests (snd ?x)] =>
        change (requests (snd x)) with l'
    end.
    rewrite Hr. cbn [fields]. now rewrite doc_lookup_update_status.
Qed.

(* ------------------------------------------------------------------ *)
(** ** What the service itself stores in a request *)

Lemma create_document_keeps_requests (c : Coll) (data : Doc) :
  c <> request -> keeps requests (create_document c data).
Proof. intros Hc s. destruct c; try reflexivity. congruence. Qed.

Lemma delete_inventory_keeps_requests (q : Query) :
  keeps requests (delete_one inventory q).
Proof.
  intros s. unfold delete_one.
  now destruct (delete_first q (db s inventory)).
Qed.

Lemma create_request_requests (payload : Request.t) (s : Store) :
  requests (snd (create_request format payload s)) = requests s
  \/ well_formed (Request.hospital_id payload) = true
     /\ exists i,
          requests (snd (create_request format payload s))
            = (requests s ++ [mkDocument i (Request.model_dump payload)])%list.
Proof.
  unfold create_request, bind. rewrite oid_str. unfold well_formed.
  destruct (ObjectId_of_str (Request.donor_id payload)) as [i|]; [|now left].
  unfold find_one.
  destruct (List.find _ (db s donor)) as [d|]; [|now left].
  rewrite oid_str.
  destruct (ObjectId_of_str (Request.hospital_id payload)) as [j|]; [|now left].
  destruct (List.find _ (db s hospital)) as [h|]; [|now left].
  right. split; [reflexivity|]. eexists. reflexivity.
Qed.

Lemma update_first_names_hospital (q : Query) (v t : Value)
    (l : list Document) :
  Forall (fun it => names_hospital it = true) l ->
  Forall (fun it => names_hospital it = true)
    (fst (update_first q [("status", v); ("updated_at", t)] l)).
Proof.
  induction 1 as [|a l Ha Hl IH]; cbn [update_first fst]; [constructor|].
  destruct (matches q a).
  - cbn [fst]. constructor; [|assumption].
    unfold names_hospital in *. cbn [fields].
    now rewrite doc_lookup_update_status.
  - destruct (update_first q _ l) as [l' n]. cbn [fst] in *.
    now constructor.
Qed.

(** Through the service alone, the [hospital_id] of every stored request
    is a well-formed identifier: a request is only inserted after
    [oid(payload.hospital_id)] has returned. *)
Lemma reachable_names_hospital (s : Store) :
  reachable EmailStr format s ->
  Forall (fun it => names_hospital it = true) (requests s).
Proof.
  induction 1 as [|c s Hs IH Hc]; [constructor|].
  destruct c as [p|p|p|i|p|t i p|p]; cbn [serve].
  - now rewrite register_donor_run.
  - exact IH.
  - unfold add_inventory.
    rewrite keeps_bind; [exact IH|auto with keeps|].
    intros j. apply keeps_bind; [auto with keeps|].
    intros [h|]; [|auto with keeps].
    apply keeps_bind; [|auto with keeps].
    apply create_document_keeps_requests. discriminate.
  - unfold remove_inventory.
    rewrite keeps_bind; [exact IH|auto with keeps|].
    intros j. apply keeps_bind; [apply delete_inventory_keeps_requests|].
    intros n. destruct (n =? 0); auto with keeps.
  - destruct (create_request_requests p s) as [->|[Hw [i ->]]]; [exact IH|].
    apply Forall_app. split; [exact IH|].
    repeat constructor. unfold names_hospital. simpl. exact Hw.
  - destruct (update_request_status_requests t i p s) as [->|[_ [k ->]]];
      [exact IH|].
    now apply update_first_names_hospital.
  - exact IH.
Qed.

End Properties.

(* ------------------------------------------------------------------ *)
(** ** The properties at sample data *)

Lemma eligible_is_health_ok_A :
  Donor_validate has_at donor_A = true
  /\ compute_eligibility donor_A = Donor.health_ok donor_A
  /\ exists data,
       donors (snd (register_donor plain donor_A empty_store))
         = ([] ++ [mkDocument 1%N data])%list
       /\ doc_lookup "eligible" data = Some (VBool true).
Proof.
  split; [reflexivity|].
  apply (eligible_is_health_ok has_at plain donor_A empty_store).
  reflexivity.
Defined.

Lemma register_donor_A_empty :
  has_at "a@x.com" = true
  /\ fst (register_donor plain donor_A empty_store)
     = Return [("id", VStr "000000000000000000000001");
               ("eligible", VBool true)].
Proof.
  split; [reflexivity|].
  apply (register_donor_A has_at plain empty_store). reflexivity.
Defined.

(** A valid request body with a malformed [donor_id] is refused with 400,
    not with 404. *)
Lemma create_request_malformed_donor_id :
  Request.validate request_no_donor = true
  /\ resolves donor (Request.donor_id request_no_donor) store_AH = false
  /\ fst (create_request plain request_no_donor store_AH)
     = Raise (HTTPException 400 "Invalid object id")
  /\ forall detail,
       fst (create_request plain request_no_donor store_AH)
         <> Raise (HTTPException 404 detail).
Proof.
  repeat split; try reflexivity.
  intros detail. vm_compute. discriminate.
Qed.

Lemma create_request_unresolved_no_donor :
  (resolves donor (Request.donor_id request_no_donor) store_AH = false
   \/ resolves hospital (Request.hospital_id request_no_donor) store_AH = false)
  /\ create_request plain request_no_donor store_AH
     = (Raise (HTTPException 400 "Invalid object id"), store_AH).
Proof.
  split; [left; reflexivity|].
  apply (create_request_unresolved plain request_no_donor store_AH).
  left. reflexivity.
Defined.

Lemma update_request_status_invalid_pending :
  literal ["approved"; "declined"] "pending" = false
  /\ update_request_status 10 (str_ObjectId 4%N) (UpdateStatus.make "pending")
       store_AH_approved
     = (Raise (HTTPException 400 "Status must be 'approved' or 'declined'"),
        store_AH_approved).
Proof.
  split; [reflexivity|].
  apply (update_request_status_invalid 10 (str_ObjectId 4%N) "pending"
           store_AH_approved).
  reflexivity.
Defined.

(** An approved request of a reachable store becomes declined. *)
Lemma settled_is_not_terminal : ~ settled_is_terminal has_at plain.
Proof.
  intros H.
  assert (Hr : reachable has_at plain store_AH_approved).
  { unfold store_AH_approved, store_AH_pending, store_AH.
    repeat (apply reachable_serve; [|reflexivity]).
    apply reachable_empty. }
  specialize
    (H store_AH_approved Hr
       [(11, str_ObjectId 4%N, UpdateStatus.make "declined")] 4%N
       (VStr "approved") eq_refl eq_refl).
  vm_compute in H. discriminate.
Qed.

Lemma settled_stays_settled_AH :
  status_of store_AH_approved 4%N = Some (VStr "approved")
  /\ settled (VStr "approved") = true
  /\ exists v',
       status_of
         (status_updates
            [(11, str_ObjectId 4%N, UpdateStatus.make "declined");
             (12, str_ObjectId 4%N, UpdateStatus.make "pending")]
            store_AH_approved) 4%N
         = Some v'
       /\ settled v' = true.
Proof.
  split; [reflexivity|]. split; [reflexivity|].
  apply (@settled_stays_settled
           [(11, str_ObjectId 4%N, UpdateStatus.make "declined");
            (12, str_ObjectId 4%N, UpdateStatus.make "pending")]
           store_AH_approved 4%N (VStr "approved"));
    reflexivity.
Defined.

(** A request whose stored [hospital_id] is no identifier: the update
    raises and inserts no notification. *)
Lemma update_request_status_stray_hospital :
  status_of store_stray 7%N = Some (VStr "pending")
  /\ fst (update_request_status 10 (str_ObjectId 7%N)
            (UpdateStatus.make "approved") store_stray)
     = Raise (HTTPException 400 "Invalid object id")
  /\ notifications
       (snd (update_request_status 10 (str_ObjectId 7%N)
               (UpdateStatus.make "approved") store_stray))
     = [].
Proof. repeat split. Qed.

Lemma update_request_status_notifies_AH :
  (literal ["approved"; "declined"] "declined" = true
   /\ ObjectId_of_str (str_ObjectId 4%N) = Some 4%N
   /\ ObjectId_of_str (str_ObjectId 3%N) = Some 3%N)
  /\ fst (update_request_status 10 (str_ObjectId 4%N)
            (UpdateStatus.make "declined") store_AH_pending)
     = Return [("status", VStr "declined")]
  /\ (exists message,
        notifications
          (snd (update_request_status 10 (str_ObjectId 4%N)
                  (UpdateStatus.make "declined") store_AH_pending))
          = (notifications store_AH_pending ++
               [mkDocument 6%N
                  [("to_email", VStr "h@x.org");
                   ("subject", VStr "Request declined");
                   ("message", message)]])%list)
  /\ status_of
       (snd (update_request_status 10 (str_ObjectId 4%N)
               (UpdateStatus.make "declined") store_AH_pending)) 4%N
     = Some (VStr "declined").
Proof.
  split; [repeat split|].
  apply (@update_request_status_notifies 10 (str_ObjectId 4%N) "declined"
           store_AH_pending 4%N 3%N
           (mkDocument 4%N (Request.model_dump request_AH))
           (str_ObjectId 3%N));
    reflexivity.
Defined.

Lemma update_request_status_not_atomic_stray :
  (literal ["approved"; "declined"] "declined" = true
   /\ ObjectId_of_str (str_ObjectId 7%N) = Some 7%N
   /\ unparseable (VStr "nowhere") = true)
  /\ fst (update_request_status 10 (str_ObjectId 7%N)
            (UpdateStatus.make "declined") store_stray)
     = Raise (HTTPException 400 "Invalid object id")
  /\ status_of
       (snd (update_request_status 10 (str_ObjectId 7%N)
               (UpdateStatus.make "declined") store_stray)) 7%N
     = Some (VStr "declined")
  /\ notifications
       (snd (update_request_status 10 (str_ObjectId 7%N)
               (UpdateStatus.make "declined") store_stray))
     = notifications store_stray.
Proof.
  split; [repeat split|].
  apply (@update_request_status_not_atomic 10 (str_ObjectId 7%N) "declined"
           store_stray 7%N
           (mkDocument 7%N
              [("hospital_id", VStr "nowhere"); ("status", VStr "pending")])
           (VStr "nowhere"));
    reflexivity.
Defined.

(* ================================================================== *)
(** * Further properties of the handlers *)

(* ------------------------------------------------------------------ *)
(** ** Identifiers as strings *)

Lemma hex_value_hex_char (d : N) :
  (d < 16)%N -> hex_value (hex_char d) = Some d.
Proof.
  intros Hd.
  destruct d as [|p]; [reflexivity|].
  do 4 (destruct p as [p|p|]; try reflexivity); exfalso; lia.
Qed.

Lemma isspace_hex_char (d : N) :
  (d < 16)%N -> isspace (hex_char d) = false.
Proof.
  intros Hd.
  destruct d as [|p]; [reflexivity|].
  do 4 (destruct p as [p|p|]; try reflexivity); exfalso; lia.
Qed.

(** Reading back [2 * k] digits gives the [k] bytes they print. *)
Lemma fromhex_hex_digits (k : nat) (n : N) (rest : string) (acc len : N) :
  fromhex (hex_digits (k + k) n rest) acc len
    = fromhex rest (acc * 256 ^ N.of_nat k + n mod 256 ^ N.of_nat k)%N
        (len + N.of_nat k)%N.
Proof.
  revert n rest acc len. induction k as [|k IH]; intros n rest acc len.
  - cbn [Nat.add hex_digits]. change (256 ^ N.of_nat 0)%N with 1%N.
    rewrite N.mod_1_r. f_equal; lia.
  - rewrite Nat.add_succ_r. cbn [Nat.add hex_digits]. rewrite IH.
    cbn [fromhex].
    rewrite isspace_hex_char by (apply N.mod_lt; lia).
    rewrite !hex_value_hex_char by (apply N.mod_lt; lia).
    rewrite Nnat.Nat2N.inj_succ, N.pow_succ_r'.
    assert (H16 : (16 * ((n / 16) mod 16) + n mod 16 = n mod 256)%N).
    { pose proof (N.Div0.mod_mul_r n 16 16) as H.
      change (16 * 16)%N with 256%N in H. lia. }
    assert (H256 : (n mod (256 * 256 ^ N.of_nat k)
                    = n mod 256 + 256 * ((n / 256) mod 256 ^ N.of_nat k))%N).
    { apply N.Div0.mod_mul_r. }
    replace (n / 16 / 16)%N with (n / 256)%N
      by (rewrite N.Div0.div_div; reflexivity).
    f_equal; lia.
Qed.

Lemma length_hex_digits (k : nat) (n : N) (rest : string) :
  String.length (hex_digits k n rest) = (k + String.length rest)%nat.
Proof.
  revert n rest. induction k as [|k IH]; intros n rest; cbn [hex_digits].
  - reflexivity.
  - rewrite IH. cbn [String.length]. lia.
Qed.

Lemma ObjectId_of_str_str (o : ObjectId) :
  (o < ObjectId_bound)%N -> ObjectId_of_str (str_ObjectId o) = Some o.
Proof.
  intros Ho. unfold ObjectId_of_str, str_ObjectId.
  rewrite length_hex_digits. cbn [String.length Nat.add Nat.eqb].
  change 24%nat with (12 + 12)%nat.
  rewrite fromhex_hex_digits. cbn [fromhex].
  change (0 + N.of_nat 12)%N with 12%N. unfold of_bytes.
  cbn [N.eqb Pos.eqb]. f_equal.
  rewrite N.mul_0_l, N.add_0_l. apply N.mod_small.
  unfold ObjectId_bound in Ho.
  replace (256 ^ N.of_nat 12)%N with (2 ^ 96)%N by reflexivity. exact Ho.
Qed.

(** An identifier of fewer than twelve bytes resolves in no collection
    whose documents carry twelve-byte identifiers. *)
Lemma short_id_unresolved (c : Coll) (x : string) (s : Store) (i : ObjectId) :
  Forall (fun it => (_id it < ObjectId_bound)%N) (db s c) ->
  ObjectId_of_str x = Some i -> (ObjectId_bound <= i)%N ->
  resolves c x s = false.
Proof.
  intros Hall Hx Hi. unfold resolves. rewrite Hx.
  destruct (List.find (matches (by_id i)) (db s c)) as [it|] eqn:Ef;
    [|reflexivity].
  apply find_some in Ef. destruct Ef as [Hin Hm].
  rewrite Forall_forall in Hall. specialize (Hall it Hin).
  rewrite matches_by_id in Hm. apply N.eqb_eq in Hm. lia.
Qed.

(** Whitespace in front of a byte is skipped, so [spaced_id] is accepted,
    as an identifier of eight bytes; whitespace inside a byte, a character
    that is no digit, or another length is refused. *)
Lemma ObjectId_of_str_samples :
  ObjectId_of_str spaced_id = Some (2 ^ 96 * 9)%N
  /\ ObjectId_of_str "0 0000000000000000000000" = None
  /\ ObjectId_of_str "00000000000000000000000g" = None
  /\ ObjectId_of_str "abc" = None
  /\ ObjectId_of_str "00000000000000000000000A" = Some 10%N.
Proof. repeat split. Qed.

(** X1. The string form of an identifier is accepted back by [oid] as the
    same identifier, and the store is not touched: an id handed out by one
    call can be given to another. *)
Theorem oid_str_ObjectId (o : ObjectId) (s : Store) :
  (o < ObjectId_bound)%N -> oid (VStr (str_ObjectId o)) s = (Return o, s).
Proof.
  intros Ho. rewrite oid_str. now rewrite ObjectId_of_str_str.
Qed.

(* ------------------------------------------------------------------ *)
(** ** Inventory *)

Lemma set_db_same (c : Coll) (s : Store) : set_db c (db s c) s = s.
Proof. destruct s, c; reflexivity. Qed.

Lemma delete_first_unmatched (q : Query) (l : list Document) :
  List.find (matches q) l = None -> delete_first q l = (l, 0).
Proof.
  induction l as [|a l IH]; cbn [List.find delete_first]; [reflexivity|].
  destruct (matches q a); [discriminate|].
  intros H. now rewrite (IH H).
Qed.

Lemma delete_first_matched (q : Query) (l : list Document) (it : Document) :
  List.find (matches q) l = Some it ->
  exists l1 l2,
    l = (l1 ++ it :: l2)%list
    /\ List.find (matches q) l1 = None
    /\ delete_first q l = ((l1 ++ l2)%list, 1).
Proof.
  induction l as [|a l IH]; cbn [List.find delete_first]; [discriminate|].
  destruct (matches q a) eqn:Ea.
  - intros [= <-]. exists [], l. repeat split.
  - intros H. destruct (IH H) as [l1 [l2 [-> [Hn Hd]]]].
    exists (a :: l1), l2. rewrite Hd. cbn [List.find app].
    rewrite Ea. repeat split. exact Hn.
Qed.

Lemma delete_first_last (q : Query) (l : list Document) (it : Document) :
  List.find (matches q) l = None -> matches q it = true ->
  delete_first q (l ++ [it]) = (l, 1).
Proof.
  intros Hn Hm.
  induction l as [|a l IH]; cbn [List.find delete_first app] in *.
  - now rewrite Hm.
  - destruct (matches q a); [discriminate|]. now rewrite (IH Hn).
Qed.

(** X2. Adding inventory for a hospital id that does not resolve fails and
    leaves the store as it was: 404 when the id is a well-formed identifier
    with no hospital, 400 when it is not an identifier at all. *)
Theorem add_inventory_unresolved (payload : Inventory.t) (s : Store) :
  resolves hospital (Inventory.hospital_id payload) s = false ->
  add_inventory payload s =
    (Raise
       (if well_formed (Inventory.hospital_id payload)
        then HTTPException 404 "Hospital not found"
        else HTTPException 400 "Invalid object id"),
     s).
Proof.
  unfold add_inventory, bind, resolves, well_formed. rewrite oid_str.
  destruct (ObjectId_of_str (Inventory.hospital_id payload)) as [i|];
    [|reflexivity].
  unfold find_one. fold (by_id i).
  destruct (List.find (matches (by_id i)) (db s hospital)); [discriminate|].
  reflexivity.
Qed.

Lemma add_inventory_resolved_run (payload : Inventory.t) (s : Store) :
  resolves hospital (Inventory.hospital_id payload) s = true ->
  add_inventory payload s =
    (Return [("id", VStr (str_ObjectId (next_oid s)))],
     mkStore (donors s) (hospitals s)
       (inventories s ++
          [mkDocument (next_oid s) (Inventory.model_dump payload)])%list
       (requests s) (notifications s) (N.succ (next_oid s))).
Proof.
  unfold add_inventory, bind, resolves. rewrite oid_str.
  destruct (ObjectId_of_str (Inventory.hospital_id payload)) as [i|];
    [|discriminate].
  unfold find_one. fold (by_id i).
  destruct (List.find (matches (by_id i)) (db s hospital)); [|discriminate].
  reflexivity.
Qed.

(** X3. Adding inventory for a hospital id that resolves returns the
    generated id and appends one record, the payload with its expiry date in
    ISO form, to the inventory; no other collection changes, and the
    hospital is not written to. *)
Theorem add_inventory_resolved (payload : Inventory.t) (s : Store) :
  resolves hospital (Inventory.hospital_id payload) s = true ->
  add_inventory payload s =
    (Return [("id", VStr (str_ObjectId (next_oid s)))],
     mkStore (donors s) (hospitals s)
       (inventories s ++
          [mkDocument (next_oid s)
             [("hospital_id", VStr (Inventory.hospital_id payload));
              ("blood_group", VStr (Inventory.blood_group payload));
              ("units", VInt (Inventory.units payload));
              ("expiry_date",
                VStr (isoformat (Inventory.expiry_date payload)))]])%list
       (requests s) (notifications s) (N.succ (next_oid s))).
Proof.
  intros Hr. rewrite (add_inventory_resolved_run payload s Hr).
  reflexivity.
Qed.

(** X4. Deleting an inventory id that does not resolve deletes nothing:
    the store is as before, and the error is 404 for a well-formed id with
    no record and 400 for a malformed id. *)
Theorem remove_inventory_unresolved (inv_id : string) (s : Store) :
  resolves inventory inv_id s = false ->
  remove_inventory inv_id s =
    (Raise
       (if well_formed inv_id
        then HTTPException 404 "Inventory record not found"
        else HTTPException 400 "Invalid object id"),
     s).
Proof.
  unfold remove_inventory, bind, resolves, well_formed. rewrite oid_str.
  destruct (ObjectId_of_str inv_id) as [i|]; [|reflexivity].
  unfold delete_one. fold (by_id i).
  destruct (List.find (matches (by_id i)) (db s inventory)) eqn:Ef;
    [discriminate|].
  rewrite (delete_first_unmatched _ _ Ef). cbn [Z.eqb].
  now rewrite set_db_same.
Qed.

(** X5. Deleting an inventory id that resolves returns "deleted" and
    removes exactly the first record with that id: the records before and
    after it stay, in order, and no other collection changes. *)
Theorem remove_inventory_resolved (inv_id : string) (s : Store)
    (i : ObjectId) (it : Document) :
  ObjectId_of_str inv_id = Some i ->
  List.find (matches (by_id i)) (inventories s) = Some it ->
  exists l1 l2,
    inventories s = (l1 ++ it :: l2)%list
    /\ List.find (matches (by_id i)) l1 = None
    /\ remove_inventory inv_id s =
         (Return [("status", VStr "deleted")],
          mkStore (donors s) (hospitals s) (l1 ++ l2)%list (requests s)
            (notifications s) (next_oid s)).
Proof.
  intros Hp Hf.
  destruct (delete_first_matched _ _ Hf) as [l1 [l2 [Hl [Hn Hd]]]].
  exists l1, l2. split; [exact Hl|]. split; [exact Hn|].
  unfold remove_inventory, bind. rewrite oid_str, Hp.
  unfold delete_one. fold (by_id i). cbn [db]. now rewrite Hd.
Qed.

(** X6. Add, then delete: when the hospital resolves and the generated id
    is new to the inventory, deleting the id that [add_inventory] returned
    succeeds and gives back the inventory as it was before the add. *)
Theorem add_then_remove_inventory (payload : Inventory.t) (s : Store) :
  resolves hospital (Inventory.hospital_id payload) s = true ->
  (next_oid s < ObjectId_bound)%N ->
  List.find (matches (by_id (next_oid s))) (inventories s) = None ->
  exists inv_id,
    fst (add_inventory payload s) = Return [("id", VStr inv_id)]
    /\ fst (remove_inventory inv_id (snd (add_inventory payload s)))
       = Return [("status", VStr "deleted")]
    /\ inventories (snd (remove_inventory inv_id (snd (add_inventory payload s))))
       = inventories s.
Proof.
  intros Hr Hb Hn. rewrite (add_inventory_resolved_run payload s Hr).
  exists (str_ObjectId (next_oid s)). cbn [fst snd].
  split; [reflexivity|].
  unfold remove_inventory, bind. rewrite oid_str, ObjectId_of_str_str by exact Hb.
  unfold delete_one. fold (by_id (next_oid s)). cbn [db inventories].
  rewrite (delete_first_last _ _ _ Hn)
    by (rewrite matches_by_id; apply N.eqb_refl).
  split; reflexivity.
Qed.

(* ------------------------------------------------------------------ *)
(** ** Requests *)

Section MoreHandlers.

Variable EmailStr : string -> bool.
Variable format : Value -> string.

Lemma create_request_run (payload : Request.t) (s : Store) (i j : ObjectId)
    (d h : Document) :
  ObjectId_of_str (Request.donor_id payload) = Some i ->
  List.find (matches (by_id i)) (donors s) = Some d ->
  ObjectId_of_str (Request.hospital_id payload) = Some j ->
  List.find (matches (by_id j)) (hospitals s) = Some h ->
  create_request format payload s =
    (Return [("id", VStr (str_ObjectId (next_oid s)))],
     mkStore (donors s) (hospitals s) (inventories s)
       (requests s ++
          [mkDocument (next_oid s) (Request.model_dump payload)])%list
       (notifications s ++
          [mkDocument (N.succ (next_oid s))
             [("to_email", get d "email");
              ("subject", VStr "Blood Request");
              ("message",
                VStr (format (get h "name") ++ " requested "
                        ++ format (VInt (Request.units payload))
                        ++ " unit(s) of " ++ Request.blood_group payload
                        ++ "."));
              ("meta",
                VDict [("request_id", VStr (str_ObjectId (next_oid s)))])]])%list
       (N.succ (N.succ (next_oid s)))).
Proof.
  intros Hi Hd Hj Hh. unfold create_request, bind.
  rewrite oid_str, Hi. unfold find_one. fold (by_id i). cbn [db].
  rewrite Hd. rewrite oid_str, Hj. fold (by_id j). cbn [db]. rewrite Hh.
  reflexivity.
Qed.

(** X7. Creating a request whose donor and hospital both resolve returns
    the generated id, stores the payload as it is, so with the status the
    payload carries, and records one notification to the donor's email that
    names the request in [meta]; donors, hospitals and inventory are not
    written to. *)
Theorem create_request_resolved (payload : Request.t) (s : Store)
    (i j : ObjectId) (d h : Document) :
  ObjectId_of_str (Request.donor_id payload) = Some i ->
  List.find (matches (by_id i)) (donors s) = Some d ->
  ObjectId_of_str (Request.hospital_id payload) = Some j ->
  List.find (matches (by_id j)) (hospitals s) = Some h ->
  let r := create_request format payload s in
  fst r = Return [("id", VStr (str_ObjectId (next_oid s)))]
  /\ requests (snd r)
     = (requests s ++
          [mkDocument (next_oid s)
             [("hospital_id", VStr (Request.hospital_id payload));
              ("donor_id", VStr (Request.donor_id payload));
              ("blood_group", VStr (Request.blood_group payload));
              ("units", VInt (Request.units payload));
              ("status", VStr (Request.status payload))]])%list
  /\ (exists message,
        notifications (snd r)
          = (notifications s ++
               [mkDocument (N.succ (next_oid s))
                  [("to_email", get d "email");
                   ("subject", VStr "Blood Request");
                   ("message", message);
                   ("meta",
                     VDict [("request_id",
                              VStr (str_ObjectId (next_oid s)))])]])%list)
  /\ donors (snd r) = donors s
  /\ hospitals (snd r) = hospitals s
  /\ inventories (snd r) = inventories s.
Proof.
  intros Hi Hd Hj Hh r. unfold r.
  rewrite (@create_request_run payload s i j d h Hi Hd Hj Hh). cbn [fst snd].
  repeat split. eexists. reflexivity.
Qed.

Lemma Value_eqb_str (v : Value) (x : string) :
  Value_eqb v (VStr x) = true <-> v = VStr x.
Proof.
  destruct v; simpl; split; try discriminate.
  - intros H. apply String.eqb_eq in H. now subst.
  - intros [= ->]. apply String.eqb_refl.
Qed.

Lemma Value_eqb_true (v : Value) :
  Value_eqb v (VBool true) = true <-> v = VBool true.
Proof.
  split; [apply Value_eqb_bool|]. now intros ->.
Qed.

(** What a filter [if v: q[k] = v] asks of a document. *)
Lemma matches_filter_by (k : string) (v : option string) (q : Query)
    (it : Document) :
  k <> "_id" ->
  matches (filter_by k v q) it = true
  <-> matches q it = true /\ agrees k v it.
Proof using Type.
  intros Hk. unfold filter_by, agrees.
  destruct v as [x|].
  2: { split; [intros H; split; [exact H|exact I]|intros [H _]; exact H]. }
  destruct (String.eqb_spec x EmptyString) as [->|Hx].
  { split; [intros H; split; [exact H|left; reflexivity]|].
    intros [H _]; exact H. }
  rewrite matches_app, andb_true_iff.
  unfold matches at 2. cbn [forallb fst snd]. rewrite andb_true_r.
  unfold field. destruct (String.eqb_spec k "_id") as [|_]; [contradiction|].
  destruct (doc_lookup k (fields it)) as [w|]; cbn [cond_holds].
  - rewrite Value_eqb_str. split.
    + intros [Hq ->]. auto.
    + intros [Hq [?|[= ->]]]; [contradiction|auto].
  - cbn [Value_eqb]. split.
    + intros [_ ?]. discriminate.
    + intros [_ [?|?]]; [contradiction|discriminate].
Qed.

Lemma matches_nil (it : Document) : matches [] it = true.
Proof. reflexivity. Qed.

(** X8. The request listing returns exactly the requests that agree with
    every filter given; a filter that is absent or the empty
    string constrains nothing.  The store is not changed. *)
Theorem list_requests_exact (status donor_id hospital_id : option string)
    (s : Store) :
  exists items,
    list_requests status donor_id hospital_id s = (Return items, s)
    /\ forall d,
         In d items <->
         exists it,
           In it (requests s) /\ d = expose_id it
           /\ agrees "status" status it
           /\ agrees "donor_id" donor_id it
           /\ agrees "hospital_id" hospital_id it.
Proof.
  eexists. split; [reflexivity|]. intros d.
  rewrite in_map_iff. split.
  - intros [it [<- Hit]]. apply filter_In in Hit. destruct Hit as [Hin Hm].
    apply matches_filter_by in Hm; [|discriminate]. destruct Hm as [Hm Hh].
    apply matches_filter_by in Hm; [|discriminate]. destruct Hm as [Hm Hd].
    apply matches_filter_by in Hm; [|discriminate]. destruct Hm as [_ Hs].
    exists it. auto.
  - intros [it [Hin [-> [Hs [Hd Hh]]]]]. exists it. split; [reflexivity|].
    apply filter_In. split; [exact Hin|].
    apply matches_filter_by; [discriminate|]. split; [|exact Hh].
    apply matches_filter_by; [discriminate|]. split; [|exact Hd].
    apply matches_filter_by; [discriminate|]. split; [|exact Hs].
    apply matches_nil.
Qed.

(** X9. The donor listing returns exactly the donors that agree with the
    blood group filter and, when [eligible_only] is set, have [eligible]
    true; with [eligible_only] false the ineligible donors are listed too.
    The store is not changed. *)
Theorem list_donors_exact (blood_group : option string) (eligible_only : bool)
    (s : Store) :
  exists items,
    list_donors blood_group eligible_only s = (Return items, s)
    /\ forall d,
         In d items <->
         exists it,
           In it (donors s) /\ d = expose_id it
           /\ agrees "blood_group" blood_group it
           /\ (eligible_only = true ->
               doc_lookup "eligible" (fields it) = Some (VBool true)).
Proof.
  eexists. split; [reflexivity|]. intros d.
  rewrite in_map_iff. split.
  - intros [it [<- Hit]]. apply filter_In in Hit. destruct Hit as [Hin Hm].
    exists it. split; [exact Hin|]. split; [reflexivity|].
    destruct eligible_only.
    + unfold query_set in Hm. rewrite matches_app in Hm.
      apply andb_true_iff in Hm. destruct Hm as [Hm He].
      apply matches_filter_by in Hm; [|discriminate]. destruct Hm as [_ Hb].
      split; [exact Hb|]. intros _.
      unfold matches in He. cbn [forallb fst snd] in He.
      rewrite andb_true_r in He. unfold field in He. cbn [String.eqb Ascii.eqb Bool.eqb] in He.
      destruct (doc_lookup "eligible" (fields it)) as [v|];
        cbn [cond_holds] in He; [|discriminate].
      now rewrite (Value_eqb_bool _ _ He).
    + apply matches_filter_by in Hm; [|discriminate]. destruct Hm as [_ Hb].
      split; [exact Hb|]. discriminate.
  - intros [it [Hin [-> [Hb He]]]]. exists it. split; [reflexivity|].
    apply filter_In. split; [exact Hin|].
    destruct eligible_only.
    + unfold query_set. rewrite matches_app. apply andb_true_iff. split.
      * apply matches_filter_by; [discriminate|]. split; [apply matches_nil|].
        exact Hb.
      * unfold matches. cbn [forallb fst snd]. rewrite andb_true_r.
        unfold field. cbn [String.eqb Ascii.eqb Bool.eqb].
        now rewrite (He eq_refl).
    + apply matches_filter_by; [discriminate|]. split; [apply matches_nil|].
      exact Hb.
Qed.

(* ------------------------------------------------------------------ *)
(** ** Status updates: what they leave alone *)

(** X10. A status update with a valid status on a request id that does
    not resolve changes nothing in the store: 404 for a well-formed id with
    no request, 400 for a malformed id. *)
Theorem update_request_status_unresolved (utcnow : Z) (request_id : string)
    (status : string) (s : Store) :
  literal ["approved"; "declined"] status = true ->
  resolves request request_id s = false ->
  update_request_status utcnow request_id (UpdateStatus.make status) s =
    (Raise
       (if well_formed request_id
        then HTTPException 404 "Request not found"
        else HTTPException 400 "Invalid object id"),
     s).
Proof.
  intros Hl. unfold update_request_status, resolves, well_formed.
  cbv zeta. cbn [UpdateStatus.status]. rewrite Hl. cbn [negb].
  unfold bind at 1. rewrite oid_str.
  destruct (ObjectId_of_str request_id) as [i|]; [|reflexivity].
  destruct (List.find (matches (by_id i)) (db s request)) eqn:Ef;
    [discriminate|]. intros _.
  unfold bind at 1. unfold update_one. fold (by_id i).
  rewrite (update_first_unmatched _ _ _ Ef). cbn [Z.eqb].
  now rewrite set_db_same.
Qed.

Lemma same_but_status_refl (l : list Document) : Forall2 same_but_status l l.
Proof.
  induction l as [|a l IH]; constructor; [|exact IH].
  split; [reflexivity|]. reflexivity.
Qed.

Lemma update_first_same_but_status (q : Query) (v t : Value)
    (l : list Document) :
  Forall2 same_but_status l
    (fst (update_first q [("status", v); ("updated_at", t)] l)).
Proof.
  induction l as [|a l IH]; cbn [update_first fst]; [constructor|].
  destruct (matches q a).
  - cbn [fst]. constructor; [|apply same_but_status_refl].
    split; [reflexivity|]. intros k Hs Hu. cbn [fields].
    rewrite doc_lookup_update_status.
    destruct (String.eqb_spec k "status"); [contradiction|].
    destruct (String.eqb_spec k "updated_at"); [contradiction|].
    reflexivity.
  - destruct (update_first q _ l) as [l' n]. cbn [fst] in *.
    constructor; [|exact IH]. split; reflexivity.
Qed.

Lemma oid_keeps_entities (v : Value) : keeps entities (oid v).
Proof.
  intros s. unfold oid, try_except, ObjectId_init.
  destruct v; try reflexivity.
  now destruct (ObjectId_of_str s0).
Qed.

Lemma update_one_request_keeps_entities (q : Query) (u : Doc) :
  keeps entities (update_one request q u).
Proof.
  intros s. unfold update_one. now destruct (update_first q u (db s request)).
Qed.

Lemma notification_keeps_entities (data : Doc) :
  keeps entities (create_document notification data).
Proof. now intros s. Qed.

Lemma update_request_status_keeps_entities (utcnow : Z) (request_id : string)
    (payload : UpdateStatus.t) :
  keeps entities (update_request_status utcnow request_id payload).
Proof.
  unfold update_request_status. cbv zeta.
  destruct (negb _); [apply keeps_raise|].
  apply keeps_bind; [apply oid_keeps_entities|]. intros i.
  apply keeps_bind; [apply update_one_request_keeps_entities|]. intros n.
  destruct (n =? 0); [apply keeps_raise|].
  apply keeps_bind; [apply oid_keeps_entities|]. intros i'.
  apply keeps_bind; [apply keeps_find_one|]. intros req.
  apply keeps_bind; [apply keeps_subscript|]. intros h.
  apply keeps_bind; [apply oid_keeps_entities|]. intros j.
  apply keeps_bind; [apply keeps_find_one|]. intros hd.
  apply keeps_bind; [apply notification_keeps_entities|]. intros _.
  apply keeps_ret.
Qed.

(** X11. Whatever its arguments and whether it returns or raises, a status
    update never writes to donors, hospitals or inventory, and never
    inserts, deletes or reorders a request: every request keeps its
    identifier and every field other than [status] and [updated_at]. *)
Theorem update_request_status_frame (utcnow : Z) (request_id : string)
    (payload : UpdateStatus.t) (s : Store) :
  donors (snd (update_request_status utcnow request_id payload s)) = donors s
  /\ hospitals (snd (update_request_status utcnow request_id payload s))
     = hospitals s
  /\ inventories (snd (update_request_status utcnow request_id payload s))
     = inventories s
  /\ Forall2 same_but_status (requests s)
       (requests (snd (update_request_status utcnow request_id payload s))).
Proof.
  pose proof (update_request_status_keeps_entities utcnow request_id payload s)
    as He.
  unfold entities in He. injection He as Hd Hh Hi.
  repeat split; try assumption.
  destruct (update_request_status_requests utcnow request_id payload s)
    as [->|[_ [k ->]]].
  - apply same_but_status_refl.
  - apply update_first_same_but_status.
Qed.

(* ------------------------------------------------------------------ *)
(** ** Collections that only grow *)

Lemma appends_of_keeps {A} (proj : Store -> list Document) (m : M A) :
  keeps proj m -> appends proj m.
Proof. intros H s. exists []. rewrite app_nil_r. apply H. Qed.

Lemma appends_bind {A B} (proj : Store -> list Document) (m : M A)
    (k : A -> M B) :
  appends proj m -> (forall a, appends proj (k a)) -> appends proj (bind m k).
Proof.
  intros Hm Hk s. unfold bind. destruct (Hm s) as [l Hl].
  destruct (m s) as [[a|e] s']; cbn [snd] in *.
  - destruct (Hk a s') as [l' Hl']. exists (l ++ l')%list.
    now rewrite Hl', Hl, app_assoc.
  - now exists l.
Qed.

Lemma create_document_appends (proj : Store -> list Document) (c : Coll)
    (data : Doc) :
  log_like proj -> appends proj (create_document c data).
Proof.
  intros [ -> | [ -> | -> ] ] s; destruct c; cbn;
    first [ now (exists []; rewrite app_nil_r) | eexists; reflexivity ].
Qed.

Lemma oid_keeps_log (proj : Store -> list Document) (v : Value) :
  log_like proj -> keeps proj (oid v).
Proof.
  intros [ -> | [ -> | -> ] ] s; unfold oid, try_except, ObjectId_init;
    destruct v; try reflexivity; now destruct (ObjectId_of_str s0).
Qed.

Lemma update_one_request_keeps_log (proj : Store -> list Document)
    (q : Query) (u : Doc) :
  log_like proj -> keeps proj (update_one request q u).
Proof.
  intros [ -> | [ -> | -> ] ] s; unfold update_one;
    now destruct (update_first q u (db s request)).
Qed.

Lemma delete_one_inventory_keeps_log (proj : Store -> list Document)
    (q : Query) :
  log_like proj -> keeps proj (delete_one inventory q).
Proof.
  intros [ -> | [ -> | -> ] ] s; unfold delete_one;
    now destruct (delete_first q (db s inventory)).
Qed.

Ltac appends_steps H :=
  repeat first
    [ apply create_document_appends; exact H
    | apply appends_of_keeps;
      first [ apply keeps_ret | apply keeps_raise | apply keeps_find_one
            | apply keeps_subscript | apply oid_keeps_log; exact H
            | apply update_one_request_keeps_log; exact H
            | apply delete_one_inventory_keeps_log; exact H ]
    | match goal with
      | |- appends _ (if ?b then _ else _) => destruct b
      | |- appends _ (match ?x with _ => _ end) => destruct x
      end
    | apply appends_bind; [|intros ?] ].

Lemma serve_appends_run (proj : Store -> list Document) (c : Call) :
  log_like proj -> appends proj (fun s => (Return tt, serve format c s)).
Proof.
  intros H s. cbn [snd].
  destruct c as [p|p|p|i|p|t i p|p]; cbn [serve];
    match goal with
    | |- exists l, proj (snd (?m s)) = _ =>
        cut (appends proj m); [intros Ha; exact (Ha s)|]
    end.
  - unfold register_donor. cbv zeta. appends_steps H.
  - unfold create_hospital. appends_steps H.
  - unfold add_inventory. appends_steps H.
  - unfold remove_inventory. appends_steps H.
  - unfold create_request. appends_steps H.
  - unfold update_request_status. cbv zeta. appends_steps H.
  - unfold create_notification. appends_steps H.
Qed.

(** X12. No call of the service deletes or rewrites a donor, a hospital or
    a notification: whether the call returns or raises, each of these
    collections afterwards is the collection before with documents added at
    the end. *)
Theorem serve_appends (proj : Store -> list Document) (c : Call) (s : Store) :
  log_like proj ->
  exists l, proj (serve format c s) = (proj s ++ l)%list.
Proof.
  intros H. destruct (serve_appends_run c H s) as [l Hl].
  exists l. exact Hl.
Qed.

(* ------------------------------------------------------------------ *)
(** ** References of the requests the service stores *)

Lemma find_app_l {A} (f : A -> bool) (l l' : list A) (x : A) :
  List.find f l = Some x -> List.find f (l ++ l') = Some x.
Proof.
  induction l as [|a l IH]; cbn [List.find app]; [discriminate|].
  destruct (f a); auto.
Qed.

Lemma resolves_appends (c : Coll) (x : string) (s s' : Store)
    (l : list Document) :
  db s' c = (db s c ++ l)%list ->
  resolves c x s = true -> resolves c x s' = true.
Proof.
  unfold resolves. intros ->.
  destruct (ObjectId_of_str x) as [i|]; [|discriminate].
  destruct (List.find (matches (by_id i)) (db s c)) as [it|] eqn:Ef;
    [|discriminate].
  now rewrite (@find_app_l _ _ _ l _ Ef).
Qed.

Lemma references_resolve_appends (s s' : Store) (l1 l2 : list Document)
    (it : Document) :
  donors s' = (donors s ++ l1)%list ->
  hospitals s' = (hospitals s ++ l2)%list ->
  references_resolve s it = true -> references_resolve s' it = true.
Proof.
  intros Hd Hh. unfold references_resolve.
  destruct (doc_lookup "hospital_id" (fields it)) as [[| | |h| | |]|];
    try discriminate.
  destruct (doc_lookup "donor_id" (fields it)) as [[| | |d| | |]|];
    try discriminate.
  rewrite !andb_true_iff. intros [H1 H2]. split.
  - exact (@resolves_appends hospital h s s' l2 Hh H1).
  - exact (@resolves_appends donor d s s' l1 Hd H2).
Qed.

Lemma references_resolve_same_but_status (s : Store) (a b : Document) :
  same_but_status a b -> references_resolve s b = references_resolve s a.
Proof.
  intros [_ H]. unfold references_resolve.
  now rewrite !H by discriminate.
Qed.

Lemma create_request_requests_resolve (payload : Request.t) (s : Store) :
  requests (snd (create_request format payload s)) = requests s
  \/ exists it,
       references_resolve s it = true
       /\ requests (snd (create_request format payload s))
          = (requests s ++ [it])%list.
Proof.
  destruct (ObjectId_of_str (Request.donor_id payload)) as [i|] eqn:Hi.
  2: { left. unfold create_request, bind. now rewrite oid_str, Hi. }
  destruct (List.find (matches (by_id i)) (donors s)) as [d|] eqn:Hd.
  2: { left. unfold create_request, bind. rewrite oid_str, Hi.
       unfold find_one. fold (by_id i). cbn [db]. now rewrite Hd. }
  destruct (ObjectId_of_str (Request.hospital_id payload)) as [j|] eqn:Hj.
  2: { left. unfold create_request, bind. rewrite oid_str, Hi.
       unfold find_one. fold (by_id i). cbn [db]. rewrite Hd.
       now rewrite oid_str, Hj. }
  destruct (List.find (matches (by_id j)) (hospitals s)) as [h|] eqn:Hh.
  2: { left. unfold create_request, bind. rewrite oid_str, Hi.
       unfold find_one. fold (by_id i). cbn [db]. rewrite Hd.
       rewrite oid_str, Hj. fold (by_id j). cbn [db]. now rewrite Hh. }
  right. rewrite (@create_request_run payload s i j d h Hi Hd Hj Hh).
  eexists. split; [|reflexivity].
  unfold references_resolve.
  cbn [fields Request.model_dump doc_lookup String.eqb Ascii.eqb Bool.eqb].
  unfold resolves. rewrite Hi, Hj. cbn [db]. now rewrite Hd, Hh.
Qed.

Ltac keeps_step :=
  first [ apply keeps_ret | apply keeps_raise | apply keeps_find_one
        | apply keeps_subscript | apply oid_keeps_requests
        | apply notification_keeps_requests ].

(** How a call changes the requests: not at all, by one request whose
    references resolve, or by the write of a status update. *)
Lemma serve_requests (c : Call) (s : Store) :
  requests (serve format c s) = requests s
  \/ (exists it,
        references_resolve s it = true
        /\ requests (serve format c s) = (requests s ++ [it])%list)
  \/ Forall2 same_but_status (requests s) (requests (serve format c s)).
Proof.
  destruct c as [p|p|p|i|p|t i p|p]; cbn [serve].
  - left. now rewrite register_donor_run.
  - now left.
  - left. unfold add_inventory.
    apply keeps_bind; [keeps_step|].
    intros j. apply keeps_bind; [keeps_step|].
    intros [h|]; [|keeps_step].
    apply keeps_bind; [|keeps_step].
    apply create_document_keeps_requests. discriminate.
  - left. unfold remove_inventory.
    apply keeps_bind; [keeps_step|].
    intros j. apply keeps_bind; [apply delete_inventory_keeps_requests|].
    intros n. destruct (n =? 0); keeps_step.
  - destruct (create_request_requests_resolve p s) as [H|H]; auto.
  - right. right.
    destruct (update_request_status_requests t i p s) as [->|[_ [k ->]]].
    + apply same_but_status_refl.
    + apply update_first_same_but_status.
  - now left.
Qed.

Lemma Forall2_Forall_transfer {A} (R : A -> A -> Prop) (P : A -> Prop)
    (l l' : list A) :
  (forall a b, R a b -> P a -> P b) ->
  Forall2 R l l' -> Forall P l -> Forall P l'.
Proof.
  intros HR H. induction H as [|a b l l' Hab _ IH]; intros Hl.
  - constructor.
  - inversion Hl; subst. constructor; eauto.
Qed.

Lemma reachable_references_resolve_run (s : Store) :
  reachable EmailStr format s ->
  Forall (fun it => references_resolve s it = true) (requests s).
Proof.
  induction 1 as [|c s Hs IH Hc]; [constructor|].
  destruct (@serve_appends_run donors c (or_introl eq_refl) s) as [l1 Hd].
  destruct (@serve_appends_run hospitals c (or_intror (or_introl eq_refl)) s)
    as [l2 Hh].
  cbn [snd] in Hd, Hh.
  assert (IH' : Forall (fun it => references_resolve (serve format c s) it = true)
                  (requests s)).
  { eapply Forall_impl; [|exact IH]. intros it.
    exact (@references_resolve_appends s _ l1 l2 it Hd Hh). }
  destruct (serve_requests c s) as [->|[[it [Hit ->]]|H2]].
  - exact IH'.
  - apply Forall_app. split; [exact IH'|]. constructor; [|constructor].
    exact (@references_resolve_appends s _ l1 l2 it Hd Hh Hit).
  - refine (@Forall2_Forall_transfer _ same_but_status _ _ _ _ H2 IH').
    intros a b Hab Ha.
    now rewrite (@references_resolve_same_but_status _ a b Hab).
Qed.

(** X13. Through the service alone, referential integrity holds: in every
    reachable store, each request's [hospital_id] and [donor_id] are strings
    that resolve to a stored hospital and a stored donor. *)
Theorem reachable_references_resolve (s : Store) (it : Document) :
  reachable EmailStr format s ->
  In it (requests s) ->
  exists h d,
    doc_lookup "hospital_id" (fields it) = Some (VStr h)
    /\ resolves hospital h s = true
    /\ doc_lookup "donor_id" (fields it) = Some (VStr d)
    /\ resolves donor d s = true.
Proof.
  intros Hr Hin.
  pose proof (@reachable_references_resolve_run s Hr) as H.
  rewrite Forall_forall in H. specialize (H it Hin).
  unfold references_resolve in H.
  destruct (doc_lookup "hospital_id" (fields it)) as [[| | |h| | |]|];
    try discriminate.
  destruct (doc_lookup "donor_id" (fields it)) as [[| | |d| | |]|];
    try discriminate.
  apply andb_true_iff in H. destruct H as [H1 H2].
  exists h, d. auto.
Qed.

(* ------------------------------------------------------------------ *)
(** ** Status updates on what the service stored *)

Lemma update_request_status_run (utcnow : Z) (request_id status : string)
    (s : Store) (i j : ObjectId) (it : Document) (h : string) :
  literal ["approved"; "declined"] status = true ->
  ObjectId_of_str request_id = Some i ->
  List.find (matches (by_id i)) (requests s) = Some it ->
  doc_lookup "hospital_id" (fields it) = Some (VStr h) ->
  ObjectId_of_str h = Some j ->
  update_request_status utcnow request_id (UpdateStatus.make status) s =
    (Return [("status", VStr status)],
     mkStore (donors s) (hospitals s) (inventories s)
       (fst (update_first (by_id i)
               [("status", VStr status); ("updated_at", VTime utcnow)]
               (requests s)))
       (notifications s ++
          [mkDocument (next_oid s)
             [("to_email",
                match List.find (matches (by_id j)) (hospitals s) with
                | Some hd => get hd "email"
                | None => VNull
                end);
              ("subject", VStr ("Request " ++ status));
              ("message",
                VStr ("Request " ++ request_id ++ " has been " ++ status
                        ++ " by the donor."))]])%list
       (N.succ (next_oid s))).
Proof.
  intros Hl Hp Hf Hh Hj.
  unfold update_request_status. cbv zeta. cbn [UpdateStatus.status].
  rewrite Hl. cbn [negb].
  unfold bind at 1. rewrite oid_str, Hp.
  unfold bind at 1. unfold update_one. fold (by_id i). cbn [db].
  destruct (@update_first_matched i
              [("status", VStr status); ("updated_at", VTime utcnow)]
              _ _ Hf) as [Hn Hr].
  destruct (update_first (by_id i) _ (requests s)) as [l' n].
  cbn [fst snd] in Hn, Hr. subst n. cbn [Z.eqb fst].
  unfold bind at 1. rewrite oid_str, Hp.
  unfold bind at 1. unfold find_one at 1. fold (by_id i).
  cbn [db set_db requests]. rewrite Hr.
  unfold bind at 1. unfold subscript, field.
  cbn [String.eqb Ascii.eqb Bool.eqb fields].
  rewrite doc_lookup_update_status. cbn [String.eqb Ascii.eqb Bool.eqb].
  rewrite Hh. unfold ret at 1.
  unfold bind at 1. rewrite oid_str, Hj.
  unfold bind at 1. unfold find_one at 1. fold (by_id j).
  reflexivity.
Qed.

(** X14. Through the service alone a status update on a stored request
    cannot fail half way: in a reachable store, a valid status and the id of
    an existing request always give a normal return, and the one
    notification inserted takes its [to_email] from a hospital that is in
    the store. *)
Theorem reachable_status_update_returns (utcnow : Z)
    (request_id status : string) (s : Store) (i : ObjectId) (it : Document) :
  reachable EmailStr format s ->
  literal ["approved"; "declined"] status = true ->
  ObjectId_of_str request_id = Some i ->
  List.find (matches (by_id i)) (requests s) = Some it ->
  let r := update_request_status utcnow request_id
             (UpdateStatus.make status) s in
  fst r = Return [("status", VStr status)]
  /\ exists hd message,
       In hd (hospitals s)
       /\ notifications (snd r)
          = (notifications s ++
               [mkDocument (next_oid s)
                  [("to_email", get hd "email");
                   ("subject", VStr ("Request " ++ status));
                   ("message", message)]])%list.
Proof.
  intros Hreach Hl Hp Hf r. unfold r; clear r.
  pose proof (@reachable_references_resolve_run s Hreach) as Hinv.
  rewrite Forall_forall in Hinv.
  specialize (Hinv it (proj1 (find_some _ _ Hf))).
  unfold references_resolve in Hinv.
  destruct (doc_lookup "hospital_id" (fields it)) as [[| | |h| | |]|] eqn:Hh;
    try discriminate.
  destruct (doc_lookup "donor_id" (fields it)) as [[| | |d| | |]|];
    try discriminate.
  apply andb_true_iff in Hinv. destruct Hinv as [Hres _].
  unfold resolves in Hres.
  destruct (ObjectId_of_str h) as [j|] eqn:Hj; [|discriminate].
  cbn [db] in Hres.
  destruct (List.find (matches (by_id j)) (hospitals s)) as [hd|] eqn:Hhd;
    [|discriminate].
  rewrite (@update_request_status_run utcnow request_id status s i j it h
             Hl Hp Hf Hh Hj).
  cbn [fst snd notifications]. split; [reflexivity|].
  exists hd. eexists. split.
  - exact (proj1 (find_some _ _ Hhd)).
  - rewrite Hhd. reflexivity.
Qed.

(* ------------------------------------------------------------------ *)
(** ** Calls in sequence *)

Lemma find_app_last {A} (f : A -> bool) (l : list A) (x : A) :
  f x = true -> exists y, List.find f (l ++ [x]) = Some y.
Proof.
  intros Hx. induction l as [|a l IH]; cbn [List.find app].
  - rewrite Hx. eauto.
  - destruct (f a); eauto.
Qed.

Lemma resolves_last (c : Coll) (s : Store) (l : list Document)
    (o : ObjectId) (data : Doc) :
  (o < ObjectId_bound)%N ->
  db s c = (l ++ [mkDocument o data])%list ->
  resolves c (str_ObjectId o) s = true.
Proof.
  intros Ho Hdb. unfold resolves. rewrite ObjectId_of_str_str by exact Ho.
  rewrite Hdb.
  destruct (@find_app_last _ (matches (by_id o)) l (mkDocument o data))
    as [y ->]; [|reflexivity].
  rewrite matches_by_id. apply N.eqb_refl.
Qed.

(** X15. The id that [create_hospital] returns is accepted by
    [add_inventory] right away: an inventory payload naming it is stored,
    whatever else the payload holds. *)
Theorem create_hospital_then_add_inventory (h : Hospital.t)
    (payload : Inventory.t) (s : Store) :
  (next_oid s < ObjectId_bound)%N ->
  fst (create_hospital h s)
    = Return [("id", VStr (Inventory.hospital_id payload))] ->
  exists inv_id data,
    fst (add_inventory payload (snd (create_hospital h s)))
      = Return [("id", VStr inv_id)]
    /\ In (mkDocument (N.succ (next_oid s)) data)
         (inventories (snd (add_inventory payload (snd (create_hospital h s)))))
    /\ doc_lookup "hospital_id" data
       = Some (VStr (Inventory.hospital_id payload)).
Proof.
  intros Hb Hid. cbn in Hid. injection Hid as Hid.
  assert (Hr : resolves hospital (Inventory.hospital_id payload)
                 (snd (create_hospital h s)) = true).
  { rewrite <- Hid.
    exact (@resolves_last hospital (snd (create_hospital h s)) (hospitals s)
             (next_oid s) (Hospital.model_dump h) Hb eq_refl). }
  rewrite (@add_inventory_resolved_run payload _ Hr). cbn [fst snd].
  do 2 eexists. split; [reflexivity|]. split.
  - cbn [inventories]. apply in_or_app. right. left. reflexivity.
  - reflexivity.
Qed.

(** X16. The ids that [register_donor] and [create_hospital] return are
    accepted by [create_request] right away: a request naming both is
    created, whatever the store was before. *)
Theorem register_then_request (dp : Donor.t) (hp : Hospital.t)
    (payload : Request.t) (s : Store) :
  (N.succ (N.succ (next_oid s)) < ObjectId_bound)%N ->
  let s1 := snd (register_donor format dp s) in
  let s2 := snd (create_hospital hp s1) in
  fst (register_donor format dp s)
    = Return [("id", VStr (Request.donor_id payload));
              ("eligible", VBool (compute_eligibility dp))] ->
  fst (create_hospital hp s1)
    = Return [("id", VStr (Request.hospital_id payload))] ->
  fst (create_request format payload s2)
    = Return [("id", VStr (str_ObjectId (next_oid s2)))]
  /\ In (mkDocument (next_oid s2) (Request.model_dump payload))
       (requests (snd (create_request format payload s2))).
Proof.
  intros Hb s1 s2 Hd Hh.
  rewrite register_donor_run in Hd. cbn [fst] in Hd. injection Hd as Hd.
  unfold s1 in Hh. rewrite register_donor_run in Hh.
  cbn in Hh. injection Hh as Hh.
  assert (Hrd : resolves donor (Request.donor_id payload) s2 = true).
  { rewrite <- Hd. unfold s2, s1. rewrite register_donor_run.
    refine (@resolves_last donor
              (snd (create_hospital hp
                      (mkStore (donors s ++ [mkDocument (next_oid s) _])%list
                         _ _ _ _ _)))
              (donors s) (next_oid s) _ _ eq_refl).
    unfold ObjectId_bound in *. lia. }
  assert (Hrh : resolves hospital (Request.hospital_id payload) s2 = true).
  { rewrite <- Hh. unfold s2, s1. rewrite register_donor_run.
    refine (@resolves_last hospital
              (snd (create_hospital hp (mkStore _ (hospitals s) _ _ _ _)))
              (hospitals s) (N.succ (N.succ (next_oid s))) _ Hb eq_refl). }
  unfold resolves in Hrd, Hrh.
  destruct (ObjectId_of_str (Request.donor_id payload)) as [i|] eqn:Hi;
    [|discriminate].
  destruct (List.find (matches (by_id i)) (db s2 donor)) as [d|] eqn:Hfd;
    [|discriminate].
  destruct (ObjectId_of_str (Request.hospital_id payload)) as [j|] eqn:Hj;
    [|discriminate].
  destruct (List.find (matches (by_id j)) (db s2 hospital)) as [h|] eqn:Hfh;
    [|discriminate].
  rewrite (@create_request_run payload s2 i j d h Hi Hfd Hj Hfh).
  cbn [fst snd requests]. split; [reflexivity|].
  apply in_or_app. right. left. reflexivity.
Qed.

(* ------------------------------------------------------------------ *)
(** ** Registration and the donor listing *)

Lemma filter_last {A} (f : A -> bool) (l : list A) (x : A) :
  filter f (l ++ [x]) = (filter f l ++ (if f x then [x] else []))%list.
Proof. rewrite filter_app. cbn [filter]. now destruct (f x). Qed.

Lemma list_donors_run (blood_group : option string) (eligible_only : bool)
    (s : Store) :
  fst (list_donors blood_group eligible_only s)
    = Return
        (map expose_id
           (filter
              (matches
                 (if eligible_only
                  then query_set "eligible" (Eq (VBool true))
                         (filter_by "blood_group" blood_group [])
                  else filter_by "blood_group" blood_group []))
              (donors s))).
Proof. reflexivity. Qed.

(** X17. A donor registered with [health_ok] false is stored, under the
    generated id and with [eligible] false, and shows up as the last record
    of the listing without [eligible_only]; but the default donor listing
    (and any listing with [eligible_only] set) is the same after the
    registration as before. *)
Theorem unhealthy_donor_not_listed (p : Donor.t)
    (blood_group : option string) (s : Store) :
  Donor.health_ok p = false ->
  (exists data,
     donors (snd (register_donor format p s))
       = (donors s ++ [mkDocument (next_oid s) data])%list
     /\ doc_lookup "email" data = Some (VStr (Donor.email p))
     /\ doc_lookup "eligible" data = Some (VBool false))
  /\ fst (list_donors blood_group true (snd (register_donor format p s)))
     = fst (list_donors blood_group true s)
  /\ exists items d,
       fst (list_donors None false s) = Return items
       /\ fst (list_donors None false (snd (register_donor format p s)))
          = Return (items ++ [d])%list
       /\ doc_lookup "id" d = Some (VStr (str_ObjectId (next_oid s)))
       /\ doc_lookup "eligible" d = Some (VBool false).
Proof.
  intros Hh.
  assert (He : compute_eligibility p = false).
  { unfold compute_eligibility. rewrite Hh. apply andb_false_r. }
  split; [|split].
  - rewrite register_donor_run. cbv zeta. cbn [snd donors]. rewrite He.
    eexists. split; [reflexivity|]. split; reflexivity.
  - rewrite !list_donors_run, register_donor_run.
    cbn [snd donors]. rewrite filter_last.
    rewrite He. unfold query_set at 2. rewrite matches_app.
    replace (matches [("eligible", Eq (VBool true))] _) with false.
    + rewrite andb_false_r. now rewrite app_nil_r.
    + reflexivity.
  - rewrite !list_donors_run, register_donor_run.
    cbn [snd donors filter_by]. rewrite filter_last, He.
    rewrite matches_nil, map_app. cbn [map].
    do 2 eexists. split; [reflexivity|]. split; [reflexivity|].
    unfold expose_id. cbn [_id fields Donor.model_dump doc_set].
    split; reflexivity.
Qed.

(** X18. A donor registered with an age from 18 to 65 and [health_ok] true
    shows up at the end of the listing of eligible donors, under the id the
    registration returned, when the listing has no blood group filter or
    filters by the donor's own blood group. *)
Theorem eligible_donor_listed (p : Donor.t) (blood_group : option string)
    (s : Store) (items : list Doc) :
  18 <= Donor.age p <= 65 -> Donor.health_ok p = true ->
  blood_group = None \/ blood_group = Some (Donor.blood_group p) ->
  fst (list_donors blood_group true s) = Return items ->
  exists d,
    fst (list_donors blood_group true (snd (register_donor format p s)))
      = Return (items ++ [d])%list
    /\ doc_lookup "id" d = Some (VStr (str_ObjectId (next_oid s)))
    /\ doc_lookup "email" d = Some (VStr (Donor.email p))
    /\ doc_lookup "eligible" d = Some (VBool true).
Proof.
  intros [Hlo Hhi] Hh Hbg Hitems.
  assert (He : compute_eligibility p = true).
  { unfold compute_eligibility. rewrite Hh.
    apply Z.leb_le in Hlo, Hhi. now rewrite Hlo, Hhi. }
  rewrite list_donors_run in Hitems. injection Hitems as <-.
  rewrite list_donors_run, register_donor_run.
  cbn [snd donors]. rewrite filter_last, He.
  match goal with
  | |- context [if matches ?q ?x then _ else _] =>
      assert (Hm : matches q x = true)
  end.
  { unfold query_set. rewrite matches_app. apply andb_true_iff.
    split; [|reflexivity].
    apply matches_filter_by; [discriminate|]. split; [reflexivity|].
    destruct Hbg as [->| ->]; [exact I|]. right. reflexivity. }
  rewrite Hm, map_app. cbn [map].
  eexists. split; [reflexivity|].
  unfold expose_id. cbn [_id fields Donor.model_dump doc_set].
  repeat split.
Qed.

(* ------------------------------------------------------------------ *)
(** ** Hospitals *)



(* ------------------------------------------------------------------ *)
(** ** ISO dates and the expiry filter *)

Lemma decimal_app (k : nat) (n : N) (acc rest : string) :
  (decimal k n acc ++ rest)%string = decimal k n (acc ++ rest)%string.
Proof.
  revert n acc. induction k as [|k IH]; intros n acc; cbn [decimal].
  - reflexivity.
  - now rewrite IH.
Qed.

Lemma compare_digit (a b : N) :
  (a < 10)%N -> (b < 10)%N ->
  Ascii.compare (ascii_of_N (48 + a)) (ascii_of_N (48 + b)) = N.compare a b.
Proof.
  intros Ha Hb. unfold Ascii.compare.
  rewrite !N_ascii_embedding by lia.
  destruct (N.compare_spec a b);
    [apply N.compare_eq_iff|apply N.compare_lt_iff|apply N.compare_gt_iff];
    lia.
Qed.

Lemma compare_div_mod (a b : N) :
  N.compare a b
    = match N.compare (a / 10) (b / 10) with
      | Datatypes.Eq => N.compare (a mod 10) (b mod 10)
      | c => c
      end.
Proof.
  pose proof (N.div_mod a 10 ltac:(lia)) as Ha.
  pose proof (N.div_mod b 10 ltac:(lia)) as Hb.
  pose proof (N.mod_lt a 10 ltac:(lia)) as Ha'.
  pose proof (N.mod_lt b 10 ltac:(lia)) as Hb'.
  set (qa := (a / 10)%N) in *. set (qb := (b / 10)%N) in *.
  set (ra := (a mod 10)%N) in *. set (rb := (b mod 10)%N) in *.
  clearbody qa qb ra rb.
  destruct (N.compare_spec qa qb) as [Hq|Hq|Hq].
  - destruct (N.compare_spec ra rb) as [Hr|Hr|Hr].
    + apply N.compare_eq_iff. lia.
    + apply N.compare_lt_iff. lia.
    + apply N.compare_gt_iff. lia.
  - apply N.compare_lt_iff. lia.
  - apply N.compare_gt_iff. lia.
Qed.

(** Fixed-width decimals compare as the numbers they print. *)
Lemma compare_decimal (k : nat) (a b : N) (ra rb : string) :
  (a < 10 ^ N.of_nat k)%N -> (b < 10 ^ N.of_nat k)%N ->
  String.compare (decimal k a ra) (decimal k b rb)
    = match N.compare a b with
      | Datatypes.Eq => String.compare ra rb
      | c => c
      end.
Proof.
  revert a b ra rb. induction k as [|k IH]; intros a b ra rb Ha Hb.
  - change (10 ^ N.of_nat 0)%N with 1%N in *.
    assert (a = 0%N) by lia. assert (b = 0%N) by lia. subst. reflexivity.
  - rewrite Nnat.Nat2N.inj_succ, N.pow_succ_r' in Ha, Hb.
    cbn [decimal]. rewrite IH.
    + cbn [String.compare].
      rewrite compare_digit by (apply N.mod_lt; lia).
      rewrite (compare_div_mod a b).
      destruct (N.compare (a / 10) (b / 10)); reflexivity.
    + apply N.Div0.div_lt_upper_bound. lia.
    + apply N.Div0.div_lt_upper_bound. lia.
Qed.

Lemma compare_isoformat (a b : date) :
  fits_iso a = true -> fits_iso b = true ->
  String.compare (isoformat a) (isoformat b) = date_compare a b.
Proof.
  unfold fits_iso. rewrite !andb_true_iff, !N.ltb_lt.
  intros [[Hya Hma] Hda] [[Hyb Hmb] Hdb].
  unfold isoformat, date_compare. rewrite !decimal_app.
  cbn [append].
  rewrite compare_decimal by assumption.
  destruct (N.compare (year a) (year b)); try reflexivity.
  cbn [String.compare]. change (Ascii.compare "-" "-") with Datatypes.Eq.
  cbv iota. rewrite compare_decimal by assumption.
  destruct (N.compare (month a) (month b)); try reflexivity.
  cbn [String.compare]. change (Ascii.compare "-" "-") with Datatypes.Eq.
  cbv iota. rewrite compare_decimal by assumption.
  destruct (N.compare (day a) (day b)); reflexivity.
Qed.

Lemma compare_leb_date (a b : date) :
  fits_iso a = true -> fits_iso b = true ->
  String.leb (isoformat a) (isoformat b) = date_leb a b.
Proof.
  intros Ha Hb. unfold String.leb, date_leb.
  now rewrite (compare_isoformat a b Ha Hb).
Qed.

(** X20. For dates whose year has at most four digits, the order of the
    ISO strings that the expiry filter compares is the calendar order of
    the dates: the string of [a] is not above the string of [b] exactly when
    [a] is not after [b]. *)
Theorem isoformat_order (a b : date) :
  fits_iso a = true -> fits_iso b = true ->
  String.leb (isoformat a) (isoformat b) = date_leb a b.
Proof.
  intros Ha Hb. unfold String.leb, date_leb.
  now rewrite (compare_isoformat a b Ha Hb).
Qed.

Lemma get_inventory_run (today : date) (s : Store) :
  fst (get_inventory today None false s)
    = Return
        (map expose_id
           (filter
              (matches [("expiry_date", Gte (VStr (isoformat today)))])
              (inventories s))).
Proof. reflexivity. Qed.

(** X21. Add, then list: a batch added for a hospital that resolves shows
    up at the end of the default inventory listing exactly when its expiry
    date is today or later in the calendar; a batch that expired before
    today is stored but not listed. *)
Theorem added_inventory_listed (payload : Inventory.t) (today : date)
    (s : Store) (items : list Doc) :
  resolves hospital (Inventory.hospital_id payload) s = true ->
  fits_iso (Inventory.expiry_date payload) = true ->
  fits_iso today = true ->
  fst (get_inventory today None false s) = Return items ->
  fst (get_inventory today None false (snd (add_inventory payload s)))
    = Return
        (items ++
           (if date_leb today (Inventory.expiry_date payload)
            then [expose_id
                    (mkDocument (next_oid s) (Inventory.model_dump payload))]
            else []))%list.
Proof.
  intros Hr Hfe Hft Hitems.
  rewrite get_inventory_run in Hitems. injection Hitems as <-.
  rewrite (@add_inventory_resolved_run payload s Hr).
  rewrite get_inventory_run. cbn [snd inventories].
  rewrite filter_last, map_app. do 2 f_equal.
  replace (matches _ (mkDocument (next_oid s) (Inventory.model_dump payload)))
    with (String.leb (isoformat today)
            (isoformat (Inventory.expiry_date payload))).
  - rewrite (compare_leb_date today (Inventory.expiry_date payload) Hft Hfe).
    now destruct (date_leb today (Inventory.expiry_date payload)).
  - unfold matches, field. cbn. now rewrite andb_true_r.
Qed.

End MoreHandlers.

(* ------------------------------------------------------------------ *)
(** ** More on listings and repeated updates *)

(** X22. The inventory listing returns exactly the records that agree with
    the hospital filter and, unless [include_expired] is set, have a string
    [expiry_date] not below today's ISO form; with [include_expired] set,
    records of any expiry, or with none, are listed. *)
Theorem get_inventory_exact (today : date) (hospital_id : option string)
    (include_expired : bool) (s : Store) :
  exists items,
    get_inventory today hospital_id include_expired s = (Return items, s)
    /\ forall d,
         In d items <->
         exists it,
           In it (inventories s) /\ d = expose_id it
           /\ agrees "hospital_id" hospital_id it
           /\ (include_expired = false ->
               exists e,
                 doc_lookup "expiry_date" (fields it) = Some (VStr e)
                 /\ String.leb (isoformat today) e = true).
Proof.
  eexists. split; [reflexivity|]. intros d.
  rewrite in_map_iff. split.
  - intros [it [<- Hit]]. apply filter_In in Hit. destruct Hit as [Hin Hm].
    exists it. split; [exact Hin|]. split; [reflexivity|].
    destruct include_expired; cbn [negb] in Hm.
    + apply matches_filter_by in Hm; [|discriminate]. destruct Hm as [_ Hb].
      split; [exact Hb|]. discriminate.
    + unfold query_set in Hm. rewrite matches_app in Hm.
      apply andb_true_iff in Hm. destruct Hm as [Hm He].
      apply matches_filter_by in Hm; [|discriminate]. destruct Hm as [_ Hb].
      split; [exact Hb|]. intros _.
      unfold matches in He. cbn [forallb fst snd] in He.
      rewrite andb_true_r in He. unfold field in He.
      cbn [String.eqb Ascii.eqb Bool.eqb] in He.
      destruct (doc_lookup "expiry_date" (fields it)) as [v|];
        cbn [cond_holds] in He; [|discriminate].
      apply Value_gte_str in He. destruct He as [e [-> He]]. eauto.
  - intros [it [Hin [-> [Hb He]]]]. exists it. split; [reflexivity|].
    apply filter_In. split; [exact Hin|].
    destruct include_expired; cbn [negb].
    + apply matches_filter_by; [discriminate|]. split; [apply matches_nil|].
      exact Hb.
    + unfold query_set. rewrite matches_app. apply andb_true_iff. split.
      * apply matches_filter_by; [discriminate|]. split; [apply matches_nil|].
        exact Hb.
      * destruct (He eq_refl) as [e [Hl Hle]].
        unfold matches. cbn [forallb fst snd]. rewrite andb_true_r.
        unfold field. cbn [String.eqb Ascii.eqb Bool.eqb].
        rewrite Hl. exact Hle.
Qed.

(** X23. The update is not guarded against being repeated: a second valid
    status update on the same request returns normally, its status is the
    one a read shows afterwards, and each of the two updates has inserted a
    notification of its own. *)
Theorem last_status_update_wins (t1 t2 : Z) (request_id st1 st2 : string)
    (s : Store) (i j : ObjectId) (it : Document) (h : string) :
  literal ["approved"; "declined"] st1 = true ->
  literal ["approved"; "declined"] st2 = true ->
  ObjectId_of_str request_id = Some i ->
  List.find (matches (by_id i)) (requests s) = Some it ->
  doc_lookup "hospital_id" (fields it) = Some (VStr h) ->
  ObjectId_of_str h = Some j ->
  let s1 := snd (update_request_status t1 request_id
                   (UpdateStatus.make st1) s) in
  let r2 := update_request_status t2 request_id (UpdateStatus.make st2) s1 in
  fst r2 = Return [("status", VStr st2)]
  /\ status_of (snd r2) i = Some (VStr st2)
  /\ List.length (notifications (snd r2))
     = S (S (List.length (notifications s))).
Proof.
  intros Hl1 Hl2 Hp Hf Hh Hj s1 r2. unfold r2, s1; clear r2 s1.
  rewrite (@update_request_status_run t1 request_id st1 s i j it h
             Hl1 Hp Hf Hh Hj).
  cbn [snd].
  destruct (@update_first_matched i
              [("status", VStr st1); ("updated_at", VTime t1)]
              _ _ Hf) as [_ Hf1].
  set (it1 := mkDocument (_id it)
                (doc_update [("status", VStr st1); ("updated_at", VTime t1)]
                   (fields it))) in *.
  assert (Hh1 : doc_lookup "hospital_id" (fields it1) = Some (VStr h)).
  { unfold it1. cbn [fields]. rewrite doc_lookup_update_status.
    cbn [String.eqb Ascii.eqb Bool.eqb]. exact Hh. }
  match goal with
  | |- context [update_request_status t2 request_id _ ?s1] =>
      rewrite (@update_request_status_run t2 request_id st2 s1 i j it1 h
                 Hl2 Hp Hf1 Hh1 Hj)
  end.
  cbn [fst snd requests notifications]. split; [reflexivity|]. split.
  - unfold status_of. cbn [requests].
    destruct (@update_first_matched i
                [("status", VStr st2); ("updated_at", VTime t2)]
                _ _ Hf1) as [_ ->].
    cbn [fields]. now rewrite doc_lookup_update_status.
  - rewrite !length_app. cbn [List.length]. lia.
Qed.

(* ------------------------------------------------------------------ *)
(** ** Identifiers with whitespace *)

(** [spaced_id] passes [oid] and then names nothing: each handler answers
    404, not 400, and leaves the store as it was. *)
Lemma spaced_id_not_found :
  create_request plain request_spaced_donor store_AH
    = (Raise (HTTPException 404 "Donor not found"), store_AH)
  /\ add_inventory (Inventory.make spaced_id "O+" 1 (mkDate 2030 1 15)) store_AH
     = (Raise (HTTPException 404 "Hospital not found"), store_AH)
  /\ remove_inventory spaced_id store_AH_stock
     = (Raise (HTTPException 404 "Inventory record not found"), store_AH_stock)
  /\ update_request_status 10 spaced_id (UpdateStatus.make "approved")
       store_AH_pending
     = (Raise (HTTPException 404 "Request not found"), store_AH_pending).
Proof. repeat split. Qed.

(** A stored [hospital_id] equal to [spaced_id] is parseable: the status
    update returns and inserts its notification, with no [to_email]. *)
Lemma spaced_hospital_id_tolerated :
  unparseable (VStr spaced_id) = false
  /\ fst (update_request_status 10 (str_ObjectId 7%N)
            (UpdateStatus.make "approved") store_spaced)
     = Return [("status", VStr "approved")]
  /\ map (fun n => doc_lookup "to_email" (fields n))
       (notifications
          (snd (update_request_status 10 (str_ObjectId 7%N)
                  (UpdateStatus.make "approved") store_spaced)))
     = [Some VNull].
Proof. repeat split. Qed.

(* ------------------------------------------------------------------ *)
(** ** The further properties at sample data *)

Lemma reachable_store_AH_pending : reachable has_at plain store_AH_pending.
Proof.
  unfold store_AH_pending, store_AH.
  repeat (apply reachable_serve; [|reflexivity]).
  apply reachable_empty.
Defined.

Lemma oid_str_ObjectId_5 :
  (5 < ObjectId_bound)%N
  /\ oid (VStr (str_ObjectId 5%N)) empty_store = (Return 5%N, empty_store).
Proof.
  split; [reflexivity|]. apply oid_str_ObjectId. reflexivity.
Defined.

Lemma add_inventory_unresolved_empty :
  resolves hospital (Inventory.hospital_id batch_H) empty_store = false
  /\ add_inventory batch_H empty_store
     = (Raise (HTTPException 404 "Hospital not found"), empty_store).
Proof.
  split; [reflexivity|].
  apply (add_inventory_unresolved batch_H empty_store). reflexivity.
Defined.

Lemma add_inventory_resolved_AH :
  resolves hospital (Inventory.hospital_id batch_H) store_AH = true
  /\ fst (add_inventory batch_H store_AH)
     = Return [("id", VStr "000000000000000000000004")].
Proof.
  split; [reflexivity|].
  rewrite (add_inventory_resolved batch_H store_AH); reflexivity.
Defined.

Lemma remove_inventory_unresolved_stock :
  resolves inventory "zzz" store_AH_stock = false
  /\ remove_inventory "zzz" store_AH_stock
     = (Raise (HTTPException 400 "Invalid object id"), store_AH_stock).
Proof.
  split; [reflexivity|].
  apply (remove_inventory_unresolved "zzz" store_AH_stock). reflexivity.
Defined.

Lemma remove_inventory_resolved_stock :
  exists l1 l2,
    inventories store_AH_stock
      = (l1 ++ mkDocument 4%N (Inventory.model_dump batch_H) :: l2)%list
    /\ List.find (matches (by_id 4%N)) l1 = None
    /\ remove_inventory (str_ObjectId 4%N) store_AH_stock
       = (Return [("status", VStr "deleted")],
          mkStore (donors store_AH_stock) (hospitals store_AH_stock)
            (l1 ++ l2)%list (requests store_AH_stock)
            (notifications store_AH_stock) (next_oid store_AH_stock)).
Proof.
  apply (@remove_inventory_resolved (str_ObjectId 4%N) store_AH_stock 4%N
           (mkDocument 4%N (Inventory.model_dump batch_H)));
    reflexivity.
Defined.

Lemma add_then_remove_inventory_AH :
  exists inv_id,
    fst (add_inventory batch_H store_AH) = Return [("id", VStr inv_id)]
    /\ fst (remove_inventory inv_id (snd (add_inventory batch_H store_AH)))
       = Return [("status", VStr "deleted")]
    /\ inventories
         (snd (remove_inventory inv_id (snd (add_inventory batch_H store_AH))))
       = inventories store_AH.
Proof.
  apply (add_then_remove_inventory batch_H store_AH); reflexivity.
Defined.

Lemma create_request_resolved_AH :
  fst (create_request plain request_AH store_AH)
    = Return [("id", VStr "000000000000000000000004")]
  /\ donors (snd (create_request plain request_AH store_AH)) = donors store_AH.
Proof.
  pose proof
    (@create_request_resolved plain request_AH store_AH 1%N 3%N
       (mkDocument 1%N
          (doc_set "eligible" (VBool true) (Donor.model_dump donor_A)))
       (mkDocument 3%N (Hospital.model_dump hospital_H))
       eq_refl eq_refl eq_refl eq_refl) as H.
  cbv zeta in H. destruct H as [H1 [_ [_ [H2 _]]]].
  split; [exact H1|exact H2].
Defined.

Lemma update_request_status_unresolved_AH :
  (literal ["approved"; "declined"] "approved" = true
   /\ resolves request (str_ObjectId 9%N) store_AH_pending = false)
  /\ update_request_status 10 (str_ObjectId 9%N) (UpdateStatus.make "approved")
       store_AH_pending
     = (Raise (HTTPException 404 "Request not found"), store_AH_pending).
Proof.
  split; [split; reflexivity|].
  apply (@update_request_status_unresolved 10 (str_ObjectId 9%N) "approved"
           store_AH_pending);
    reflexivity.
Defined.

Lemma serve_appends_notifications :
  log_like notifications
  /\ exists l,
       notifications (serve plain (POST_requests request_AH) store_AH)
         = (notifications store_AH ++ l)%list.
Proof.
  split; [right; right; reflexivity|].
  apply (@serve_appends plain notifications (POST_requests request_AH)
           store_AH).
  right. right. reflexivity.
Defined.

Lemma reachable_references_resolve_AH :
  exists h d,
    doc_lookup "hospital_id" (Request.model_dump request_AH) = Some (VStr h)
    /\ resolves hospital h store_AH_pending = true
    /\ doc_lookup "donor_id" (Request.model_dump request_AH) = Some (VStr d)
    /\ resolves donor d store_AH_pending = true.
Proof.
  apply (@reachable_references_resolve has_at plain store_AH_pending
           (mkDocument 4%N (Request.model_dump request_AH))
           reachable_store_AH_pending).
  left. reflexivity.
Defined.

Lemma reachable_status_update_returns_AH :
  fst (update_request_status 10 (str_ObjectId 4%N)
         (UpdateStatus.make "approved") store_AH_pending)
    = Return [("status", VStr "approved")].
Proof.
  apply (@reachable_status_update_returns has_at plain 10 (str_ObjectId 4%N)
           "approved" store_AH_pending 4%N
           (mkDocument 4%N (Request.model_dump request_AH))
           reachable_store_AH_pending eq_refl eq_refl eq_refl).
Defined.

Lemma create_hospital_then_add_inventory_empty :
  exists inv_id data,
    fst (add_inventory
           (Inventory.make (str_ObjectId 1%N) "B+" 1 (mkDate 2031 6 1))
           (snd (create_hospital hospital_H empty_store)))
      = Return [("id", VStr inv_id)]
    /\ In (mkDocument 2%N data)
         (inventories
            (snd (add_inventory
                    (Inventory.make (str_ObjectId 1%N) "B+" 1 (mkDate 2031 6 1))
                    (snd (create_hospital hospital_H empty_store)))))
    /\ doc_lookup "hospital_id" data = Some (VStr (str_ObjectId 1%N)).
Proof.
  apply (@create_hospital_then_add_inventory hospital_H
           (Inventory.make (str_ObjectId 1%N) "B+" 1 (mkDate 2031 6 1))
           empty_store);
    reflexivity.
Defined.

Lemma register_then_request_empty :
  fst (create_request plain request_AH store_AH)
    = Return [("id", VStr (str_ObjectId 4%N))]
  /\ In (mkDocument 4%N (Request.model_dump request_AH))
       (requests (snd (create_request plain request_AH store_AH))).
Proof.
  apply (@register_then_request plain donor_A hospital_H request_AH
           empty_store);
    reflexivity.
Defined.

Lemma unhealthy_donor_not_listed_B :
  Donor.health_ok donor_B = false
  /\ (exists data,
        donors (snd (register_donor plain donor_B store_AH))
          = (donors store_AH ++ [mkDocument 4%N data])%list
        /\ doc_lookup "email" data = Some (VStr "b@x.com")
        /\ doc_lookup "eligible" data = Some (VBool false))
  /\ fst (list_donors None true (snd (register_donor plain donor_B store_AH)))
     = fst (list_donors None true store_AH).
Proof.
  split; [reflexivity|].
  pose proof (@unhealthy_donor_not_listed plain donor_B None store_AH eq_refl)
    as H.
  split; [exact (proj1 H)|exact (proj1 (proj2 H))].
Defined.

Lemma eligible_donor_listed_A :
  exists d,
    fst (list_donors (Some "O+") true
           (snd (register_donor plain donor_A empty_store)))
      = Return ([] ++ [d])%list
    /\ doc_lookup "id" d = Some (VStr (str_ObjectId 1%N))
    /\ doc_lookup "email" d = Some (VStr "a@x.com")
    /\ doc_lookup "eligible" d = Some (VBool true).
Proof.
  apply (@eligible_donor_listed plain donor_A (Some "O+") empty_store []).
  - simpl. lia.
  - reflexivity.
  - right. reflexivity.
  - reflexivity.
Defined.


Lemma isoformat_order_sample :
  String.leb (isoformat (mkDate 2029 12 31)) (isoformat (mkDate 2030 1 15))
    = date_leb (mkDate 2029 12 31) (mkDate 2030 1 15).
Proof.
  apply (isoformat_order (mkDate 2029 12 31) (mkDate 2030 1 15));
    reflexivity.
Defined.

Lemma added_inventory_listed_AH :
  fst (get_inventory (mkDate 2029 12 31) None false
         (snd (add_inventory batch_H store_AH)))
    = Return
        ([] ++
           (if date_leb (mkDate 2029 12 31) (Inventory.expiry_date batch_H)
            then [expose_id (mkDocument 4%N (Inventory.model_dump batch_H))]
            else []))%list.
Proof.
  apply (@added_inventory_listed batch_H (mkDate 2029 12 31) store_AH []);
    reflexivity.
Defined.

Lemma last_status_update_wins_AH :
  fst (update_request_status 11 (str_ObjectId 4%N)
         (UpdateStatus.make "declined") store_AH_approved)
    = Return [("status", VStr "declined")]
  /\ status_of
       (snd (update_request_status 11 (str_ObjectId 4%N)
               (UpdateStatus.make "declined") store_AH_approved)) 4%N
     = Some (VStr "declined")
  /\ List.length
       (notifications
          (snd (update_request_status 11 (str_ObjectId 4%N)
                  (UpdateStatus.make "declined") store_AH_approved)))
     = S (S (List.length (notifications store_AH_pending))).
Proof.
  apply (@last_status_update_wins 10 11 (str_ObjectId 4%N) "approved"
           "declined" store_AH_pending 4%N 3%N
           (mkDocument 4%N (Request.model_dump request_AH))
           (str_ObjectId 3%N));
    reflexivity.
Defined.
